(** * cf_under_attack: the load guard for a Cloudflare zone

    A shallow embedding of [cf_under_attack.py] and the properties of its
    decision engine ([main]), its alert dispatcher ([send_alert]), its
    reading of the configuration file ([load_config]) and its reading of
    the replies of the API ([cf_request]).

    Conventions of the model.
    - Files live in a store [gmap string string] from path to content; a
      missing key is a missing file.  Two configuration keys that name the
      same path alias the same file.  The local filesystem is taken to work:
      [open] for writing succeeds, so the [except] branch of [write_file]
      is never taken.
    - [time.time()] is read once per run ([now]); a run is instantaneous.
    - Floats are the exact rationals they denote ([Q]); inf and nan are
      outside the model, so [int] of a float is total here where the
      source raises on them.  [float()] on text is a parameter of the
      development, as it is a builtin of the language.  The products
      [cooldown_hours * 3600] and [cooldown_min * 60] are exact, where the
      source rounds them to a double before it truncates them; the
      theorems name the truncated product ([cooldown_seconds], the window
      of [can_alert]) whatever its value, and the samples use values on
      which the two agree.
    - Text is ASCII.  The state files hold one line of text without
      carriage returns: the translation of line ends that reading in text
      mode does is not part of [read_file].  The alert texts and log lines,
      f-strings in the source, are values of [Msg] and [LogLine] that keep
      their arguments.
    - What a run does to the outside is logged in order in a trace: the API
      calls, the lines printed, each call of [send_alert] from [main] and
      each delivery attempt.  The outcome of a delivery is not part of the
      model: the source discards it.
    - The zone's security level is one stored string: a GET answered with
      status 200 carries it, a PATCH answered with success replaces it. *)

From Stdlib Require Import ZArith QArith Qround String Ascii DecimalString DecimalZ Lia Lqa.
From stdpp Require Import gmap strings.

Local Open Scope string_scope.
Local Open Scope Z_scope.

(** ** Builtins of the language used by the program *)

Module Py.

(** [str.isspace] on one ASCII character. *)
Definition isspace (c : ascii) : bool :=
  let n := nat_of_ascii c in
  ((9 <=? n)%nat && (n <=? 13)%nat) || ((28 <=? n)%nat && (n <=? 32)%nat).

Fixpoint lstrip (s : string) : string :=
  match s with
  | String c r => if isspace c then lstrip r else s
  | EmptyString => EmptyString
  end.

(** [rstrip] keeps a character when it is not blank or when something
    remains after it. *)
Fixpoint rstrip (s : string) : string :=
  match s with
  | String c r =>
      match rstrip r with
      | EmptyString => if isspace c then EmptyString else String c EmptyString
      | r' => String c r'
      end
  | EmptyString => EmptyString
  end.

(** [s.strip()] *)
Definition strip (s : string) : string := rstrip (lstrip s).

(** [s.split()] with no argument: the maximal runs of non-blank
    characters.  [cur] is the field being read. *)
Fixpoint split_go (cur : option string) (s : string) : list string :=
  match s with
  | EmptyString =>
      match cur with Some w => [String.rev w] | None => [] end
  | String c r =>
      if isspace c then
        match cur with
        | Some w => String.rev w :: split_go None r
        | None => split_go None r
        end
      else
        split_go (Some (String c (default EmptyString cur))) r
  end.

Definition split (s : string) : list string := split_go None s.

Definition isdigit (c : ascii) : bool :=
  let n := nat_of_ascii c in (48 <=? n)%nat && (n <=? 57)%nat.

Fixpoint all_chars (P : ascii -> bool) (s : string) : bool :=
  match s with
  | EmptyString => true
  | String c r => P c && all_chars P r
  end.

(** Digits of an integer literal: single underscores are allowed between
    two digits and dropped.  [prev] tells whether the previous character
    was a digit. *)
Fixpoint literal_digits (prev : bool) (s : string) : option string :=
  match s with
  | EmptyString => if prev then Some EmptyString else None
  | String c r =>
      if isdigit c then String c <$> literal_digits true r
      else if Ascii.eqb c "_" then
        (if prev then
           match r with
           | String c' _ => if isdigit c' then literal_digits false r else None
           | EmptyString => None
           end
         else None)
      else None
  end.

Definition unsigned_literal (s : string) : option Z :=
  d ← literal_digits false s; Z.of_uint <$> NilEmpty.uint_of_string d.

(** [int(s)] for a [str] in base 10; [None] stands for [ValueError]. *)
Definition int (s : string) : option Z :=
  match strip s with
  | String c r =>
      if Ascii.eqb c "+" then unsigned_literal r
      else if Ascii.eqb c "-" then Z.opp <$> unsigned_literal r
      else unsigned_literal (String c r)
  | EmptyString => None
  end.

(** [str(n)] for an [int]. *)
Definition str (n : Z) : string := NilZero.string_of_int (Z.to_int n).

(** [int(x)] for a float: truncation toward zero. *)
Definition trunc (x : Q) : Z := Z.quot (Qnum x) (Zpos (Qden x)).

(** Rounding to the nearest integer, ties to the even one. *)
Definition round_half_even (x : Q) : Z :=
  let f := Qfloor x in
  match (x - inject_Z f ?= 1 # 2)%Q with
  | Lt => f
  | Gt => f + 1
  | Eq => if Z.even f then f else f + 1
  end.

(** [round(x, 2)]: the nearest hundredth of the exact value. *)
Definition round2 (x : Q) : Q := round_half_even (x * 100) # 100.

(** [a > b] on floats *)
Definition gt (a b : Q) : bool := negb (Qle_bool a b).

End Py.

(** ** Configuration, environment and world *)

(** The values [main] and [send_alert] obtain from the configuration
    through [cfg_get], defaults applied and [float] casts done; a field is
    named by its key.  [alert_mode] is the lower-cased value. *)
Record Config := {
  ZONE_ID : option string;
  CF_API_TOKEN : option string;
  LOAD_THRESHOLD : Q;
  LOW_LOAD_MODE : string;
  CACHE_FILE : string;
  TIMESTAMP_FILE : string;
  COOLDOWN_HOURS : Q;
  ALERT_MODE : string;
  ALERT_TS_FILE : string;
  ALERT_COOLDOWN_MIN : Q;
  ALERT_SLACK_WEBHOOK : string;
  ALERT_SLACK_USE_BLOCKS : bool;
  ALERT_EMAIL_TO : string;
  ALERT_EMAIL_FROM : string;
  ALERT_EMAIL_SUBJECT_PREFIX : string;
  ALERT_COMMAND : string
}.

(** What one run reads from outside: the clock, the host name, the content
    of /proc/loadavg ([None] when it cannot be opened), how the API answers
    and which mail agents are installed. *)
Record Env := {
  now : Z;
  hostname : string;
  proc_loadavg : option string;
  get_code : Z;
  patch_code : Z;
  patch_success : bool;
  has_sendmail : bool;
  has_mail : bool
}.

(** The four alert texts of [main]. *)
Inductive Msg :=
| ManualUnderAttack (host : string) (at_time : Z)
| ManualOther (host actual : string) (at_time : Z)
| Entered (host : string) (load threshold : Q) (at_time : Z)
| Exited (host target : string) (load : Q) (at_time : Z).

Inductive SlackPayload :=
| Blocks (m : Msg) (host target : string) (load threshold : Q) (at_time : Z)
| Text (m : Msg).

Inductive LogLine :=
| MissingCredentials
| GetFailed
| Syncing (last actual : string)
| Setting (target : string)
| ApiFailed (code : Z).

(** What a run does to the outside, in order.  [Alert] marks a call of
    [send_alert] from [main]; the three after it are delivery attempts. *)
Inductive Event :=
| Print (l : LogLine)
| Get
| Patch (value : string)
| Alert (m : Msg)
| Slack (webhook : string) (p : SlackPayload)
| Sendmail (from_addr to_addr subject : string) (m : Msg)
| Mail (from_addr subject to_addr : string) (m : Msg)
| Command (template : string) (m : Msg).

Record World := {
  files : gmap string string;
  zone_level : string;
  trace : list Event
}.

Definition UNDER_ATTACK : string := "under_attack".

(** ** State passing *)

Definition M (A : Type) : Type := World -> A * World.

#[global] Instance M_ret : MRet M := fun A a w => (a, w).
#[global] Instance M_bind : MBind M :=
  fun A B f m w => let '(a, w') := m w in f a w'.

Definition gets {A : Type} (f : World -> A) : M A := fun w => (f w, w).

Definition modify (f : World -> World) : M unit := fun w => (tt, f w).

Definition with_events (evs : list Event) (w : World) : World :=
  {| files := files w; zone_level := zone_level w; trace := trace w ++ evs |}.

Definition with_files (fs : gmap string string) (w : World) : World :=
  {| files := fs; zone_level := zone_level w; trace := trace w |}.

Definition with_zone (value : string) (w : World) : World :=
  {| files := files w; zone_level := value; trace := trace w |}.

Definition emit (ev : Event) : M unit := modify (with_events [ev]).

Definition set_files (f : gmap string string -> gmap string string) : M unit :=
  modify (fun w => with_files (f (files w)) w).

Definition set_zone (value : string) : M unit := modify (with_zone value).

Definition when (b : bool) (m : M unit) : M unit := if b then m else mret tt.

(** [x or d] on strings *)
Definition or_else (x d : string) : string :=
  match x with EmptyString => d | _ => x end.

(** ** Load and guard state helpers *)

Section Guard.

(** [float(s)] for a [str]: the value, or [None] for [ValueError]. *)
Variable py_float : string -> option Q.

Definition read_5min_load (e : Env) : Q :=
  match proc_loadavg e with
  | Some content =>
      match Py.split content !! 1%nat with
      | Some field => default 0%Q (py_float field)
      | None => 0%Q
      end
  | None => 0%Q
  end.

Definition read_file (path : string) : M string :=
  gets (fun w => match files w !! path with
                 | Some content => Py.strip content
                 | None => EmptyString
                 end).

Definition write_file (path content : string) : M bool :=
  set_files (insert path content);; mret true.

Definition remove_file (path : string) : M unit :=
  set_files (delete path).

(** [os.path.isfile(path)] *)
Definition isfile (path : string) : M bool :=
  gets (fun w => bool_decide (is_Some (files w !! path))).

(** ** Cloudflare API *)

Definition cf_get_mode (e : Env) : M string :=
  emit Get;;
  if get_code e =? 200 then gets zone_level else mret EmptyString.

Definition cf_set_mode (e : Env) (value : string) : M (Z * bool) :=
  emit (Patch value);;
  when (patch_success e) (set_zone value);;
  mret (patch_code e, patch_success e).

(** ** Alerts *)

Definition last_alert (ts_file : string) : M Z :=
  raw ← read_file ts_file; mret (default 0 (Py.int (or_else raw "0"))).

Definition can_alert (e : Env) (ts_file : string) (cooldown_min : Q) : M bool :=
  if decide (ts_file = EmptyString) then mret true
  else
    last ← last_alert ts_file;
    mret (Py.trunc (cooldown_min * 60) <=? now e - last).

Definition record_alert_ts (e : Env) (ts_file : string) : M unit :=
  if decide (ts_file = EmptyString) then mret tt
  else write_file ts_file (Py.str (now e));; mret tt.

Definition alert_slack (e : Env) (webhook : string) (m : Msg) (use_blocks : bool)
    (host target_mode : string) (load_now threshold : Q) : M unit :=
  if decide (webhook = EmptyString) then mret tt
  else
    emit (Slack webhook
            (if use_blocks
             then Blocks m host target_mode load_now threshold (now e)
             else Text m)).

Definition alert_email (e : Env) (to_addr from_addr subject_prefix : string)
    (m : Msg) : M unit :=
  let subject := or_else subject_prefix "[CF Guard]" ++ " Notification" in
  if has_sendmail e then emit (Sendmail from_addr to_addr subject m)
  else if has_mail e then emit (Mail from_addr subject to_addr m)
  else mret tt.

Definition alert_command (command_tpl : string) (m : Msg) : M unit :=
  if decide (command_tpl = EmptyString) then mret tt
  else emit (Command command_tpl m).

(** The choice of channel in [send_alert] (lines 233-245). *)
Definition deliver (cfg : Config) (e : Env) (m : Msg)
    (host target_mode : string) (load_now threshold : Q) : M unit :=
  let mode := ALERT_MODE cfg in
  if decide (mode = "slack") then
    alert_slack e (ALERT_SLACK_WEBHOOK cfg) m (ALERT_SLACK_USE_BLOCKS cfg)
      host target_mode load_now threshold
  else if decide (mode = "email") then
    when (negb (bool_decide (ALERT_EMAIL_TO cfg = EmptyString)))
      (alert_email e (ALERT_EMAIL_TO cfg) (ALERT_EMAIL_FROM cfg)
         (ALERT_EMAIL_SUBJECT_PREFIX cfg) m)
  else if decide (mode = "command") then
    alert_command (ALERT_COMMAND cfg) m
  else mret tt.

Definition send_alert (cfg : Config) (e : Env) (m : Msg)
    (host target_mode : string) (load_now threshold : Q) : M unit :=
  let mode := ALERT_MODE cfg in
  if decide (mode = "none") then mret tt
  else
    let ts_file := ALERT_TS_FILE cfg in
    let cooldown := ALERT_COOLDOWN_MIN cfg in
    ok ← can_alert e ts_file cooldown;
    if negb ok then mret tt
    else
      deliver cfg e m host target_mode load_now threshold;;
      record_alert_ts e ts_file.

(** ** Main flow *)

(** [not v] for a value read with [cfg_get(cfg, key)] *)
Definition missing (v : option string) : bool :=
  match v with Some (String _ _) => false | _ => true end.

(** A call of [send_alert] from [main]. *)
Definition fire (cfg : Config) (e : Env) (m : Msg) (target_mode : string)
    (load_now threshold : Q) : M unit :=
  emit (Alert m);; send_alert cfg e m (hostname e) target_mode load_now threshold.

(** Manual override detection and cache sync (lines 284-295); the result
    is [last_mode]. *)
Definition sync_cache (cfg : Config) (e : Env) (load_now threshold : Q)
    (actual_mode last_mode : string) : M string :=
  if decide (actual_mode <> last_mode) then
    emit (Print (Syncing last_mode actual_mode));;
    write_file (CACHE_FILE cfg) actual_mode;;
    (if decide (actual_mode = UNDER_ATTACK) then
       write_file (TIMESTAMP_FILE cfg) (Py.str (now e));;
       fire cfg e (ManualUnderAttack (hostname e) (now e)) actual_mode load_now threshold
     else
       remove_file (TIMESTAMP_FILE cfg);;
       fire cfg e (ManualOther (hostname e) actual_mode (now e)) actual_mode load_now threshold);;
    mret actual_mode
  else mret last_mode.

Definition cooldown_seconds (cfg : Config) : Z := Py.trunc (COOLDOWN_HOURS cfg * 3600).

(** [activated_at] as line 305 reads it *)
Definition activated_at (cfg : Config) : M Z :=
  raw ← read_file (TIMESTAMP_FILE cfg); mret (default 0 (Py.int (or_else raw "0"))).

(** Determine target mode (lines 298-313); the result is [target_mode]. *)
Definition determine_target (cfg : Config) (e : Env) (load_now threshold : Q)
    (last_mode : string) : M string :=
  if Py.gt load_now threshold then
    when (bool_decide (last_mode <> UNDER_ATTACK))
      (write_file (TIMESTAMP_FILE cfg) (Py.str (now e));; mret tt);;
    mret UNDER_ATTACK
  else
    present ← isfile (TIMESTAMP_FILE cfg);
    if bool_decide (last_mode = UNDER_ATTACK) && present then
      activated ← activated_at cfg;
      let elapsed := now e - activated in
      if elapsed <? cooldown_seconds cfg then mret UNDER_ATTACK
      else remove_file (TIMESTAMP_FILE cfg);; mret (LOW_LOAD_MODE cfg)
    else mret (LOW_LOAD_MODE cfg).

(** Apply mode change if needed (lines 316-328). *)
Definition apply_mode (cfg : Config) (e : Env) (load_now threshold : Q)
    (last_mode target_mode : string) : M unit :=
  if decide (target_mode <> last_mode) then
    emit (Print (Setting target_mode));;
    '(code, success) ← cf_set_mode e target_mode;
    if (success : bool) then
      write_file (CACHE_FILE cfg) target_mode;;
      (if decide (target_mode = UNDER_ATTACK) then
         fire cfg e (Entered (hostname e) load_now threshold (now e)) target_mode load_now threshold
       else
         fire cfg e (Exited (hostname e) target_mode load_now (now e)) target_mode load_now threshold)
    else emit (Print (ApiFailed code))
  else mret tt.

Definition main (cfg : Config) (e : Env) : M Z :=
  if missing (ZONE_ID cfg) || missing (CF_API_TOKEN cfg) then
    emit (Print MissingCredentials);; mret 1
  else
    let load_now := Py.round2 (read_5min_load e) in
    let threshold := Py.round2 (LOAD_THRESHOLD cfg) in
    actual_mode ← cf_get_mode e;
    if decide (actual_mode = EmptyString) then
      emit (Print GetFailed);; mret 2
    else
      cached ← read_file (CACHE_FILE cfg);
      last_mode ← sync_cache cfg e load_now threshold actual_mode (or_else cached EmptyString);
      target_mode ← determine_target cfg e load_now threshold last_mode;
      apply_mode cfg e load_now threshold last_mode target_mode;;
      mret 0.

(** The values a run goes through once the zone's level is fetched: the
    modes it computes, the world after the cache sync ([synced]) and the
    world after the target is determined ([decided]), on which
    [apply_mode] then runs. *)
Record Run := {
  actual_mode : string;
  cached_mode : string;
  last_mode : string;
  target_mode : string;
  synced : World;
  decided : World
}.

Definition run_of (cfg : Config) (e : Env) (w : World) : option Run :=
  if missing (ZONE_ID cfg) || missing (CF_API_TOKEN cfg) then None
  else
    let load_now := Py.round2 (read_5min_load e) in
    let threshold := Py.round2 (LOAD_THRESHOLD cfg) in
    let '(actual, w0) := cf_get_mode e w in
    if decide (actual = EmptyString) then None
    else
      let cached := or_else (read_file (CACHE_FILE cfg) w0).1 EmptyString in
      let '(last, w1) := sync_cache cfg e load_now threshold actual cached w0 in
      let '(target, w2) := determine_target cfg e load_now threshold last w1 in
      Some {| actual_mode := actual; cached_mode := cached; last_mode := last;
              target_mode := target; synced := w1; decided := w2 |}.

End Guard.

(** ** Observations used in the statements *)

(** A delivery attempt, as opposed to a log line, an API call or the mark
    of a call of [send_alert]. *)
Definition is_delivery (ev : Event) : bool :=
  match ev with
  | Slack _ _ | Sendmail _ _ _ _ | Mail _ _ _ _ | Command _ _ => true
  | _ => false
  end.

Definition deliveries (tr : list Event) : nat := length (filter is_delivery tr).

Definition is_patch (ev : Event) : bool :=
  match ev with Patch _ => true | _ => false end.

Definition is_alert (ev : Event) : bool :=
  match ev with Alert _ => true | _ => false end.

(** The alert of a change of level made by this program, as opposed to
    the report of a manual change. *)
Definition is_transition_alert (ev : Event) : bool :=
  match ev with
  | Alert (Entered _ _ _ _) | Alert (Exited _ _ _ _) => true
  | _ => false
  end.

(** A write to the zone or the alert of one. *)
Definition changes_level (ev : Event) : bool :=
  is_patch ev || is_transition_alert ev.

(** The configured channel has what it needs to attempt a delivery. *)
Definition channel_ready (cfg : Config) (e : Env) : bool :=
  if decide (ALERT_MODE cfg = "slack") then
    negb (bool_decide (ALERT_SLACK_WEBHOOK cfg = EmptyString))
  else if decide (ALERT_MODE cfg = "email") then
    negb (bool_decide (ALERT_EMAIL_TO cfg = EmptyString))
    && (has_sendmail e || has_mail e)
  else if decide (ALERT_MODE cfg = "command") then
    negb (bool_decide (ALERT_COMMAND cfg = EmptyString))
  else false.

(** The text [sync_cache] sends for a manual change to [actual]. *)
Definition manual_msg (e : Env) (actual : string) : Msg :=
  if decide (actual = UNDER_ATTACK) then ManualUnderAttack (hostname e) (now e)
  else ManualOther (hostname e) actual (now e).

(** The text [apply_mode] sends once the zone is at [target]. *)
Definition transition_msg (e : Env) (target : string) (load_now threshold : Q) : Msg :=
  if decide (target = UNDER_ATTACK) then Entered (hostname e) load_now threshold (now e)
  else Exited (hostname e) target load_now (now e).

(** [cfg] with another load threshold, cooldown, alert cooldown or alert
    timestamp path, [e] with another content of /proc/loadavg. *)
Definition set_threshold (t : Q) (cfg : Config) : Config := {|
  ZONE_ID := ZONE_ID cfg; CF_API_TOKEN := CF_API_TOKEN cfg; LOAD_THRESHOLD := t;
  LOW_LOAD_MODE := LOW_LOAD_MODE cfg; CACHE_FILE := CACHE_FILE cfg;
  TIMESTAMP_FILE := TIMESTAMP_FILE cfg; COOLDOWN_HOURS := COOLDOWN_HOURS cfg;
  ALERT_MODE := ALERT_MODE cfg; ALERT_TS_FILE := ALERT_TS_FILE cfg;
  ALERT_COOLDOWN_MIN := ALERT_COOLDOWN_MIN cfg;
  ALERT_SLACK_WEBHOOK := ALERT_SLACK_WEBHOOK cfg;
  ALERT_SLACK_USE_BLOCKS := ALERT_SLACK_USE_BLOCKS cfg;
  ALERT_EMAIL_TO := ALERT_EMAIL_TO cfg; ALERT_EMAIL_FROM := ALERT_EMAIL_FROM cfg;
  ALERT_EMAIL_SUBJECT_PREFIX := ALERT_EMAIL_SUBJECT_PREFIX cfg;
  ALERT_COMMAND := ALERT_COMMAND cfg |}.


Definition set_alert_cooldown (c : Q) (cfg : Config) : Config := {|
  ZONE_ID := ZONE_ID cfg; CF_API_TOKEN := CF_API_TOKEN cfg;
  LOAD_THRESHOLD := LOAD_THRESHOLD cfg;
  LOW_LOAD_MODE := LOW_LOAD_MODE cfg; CACHE_FILE := CACHE_FILE cfg;
  TIMESTAMP_FILE := TIMESTAMP_FILE cfg; COOLDOWN_HOURS := COOLDOWN_HOURS cfg;
  ALERT_MODE := ALERT_MODE cfg; ALERT_TS_FILE := ALERT_TS_FILE cfg;
  ALERT_COOLDOWN_MIN := c;
  ALERT_SLACK_WEBHOOK := ALERT_SLACK_WEBHOOK cfg;
  ALERT_SLACK_USE_BLOCKS := ALERT_SLACK_USE_BLOCKS cfg;
  ALERT_EMAIL_TO := ALERT_EMAIL_TO cfg; ALERT_EMAIL_FROM := ALERT_EMAIL_FROM cfg;
  ALERT_EMAIL_SUBJECT_PREFIX := ALERT_EMAIL_SUBJECT_PREFIX cfg;
  ALERT_COMMAND := ALERT_COMMAND cfg |}.

Definition set_alert_ts_file (path : string) (cfg : Config) : Config := {|
  ZONE_ID := ZONE_ID cfg; CF_API_TOKEN := CF_API_TOKEN cfg;
  LOAD_THRESHOLD := LOAD_THRESHOLD cfg;
  LOW_LOAD_MODE := LOW_LOAD_MODE cfg; CACHE_FILE := CACHE_FILE cfg;
  TIMESTAMP_FILE := TIMESTAMP_FILE cfg; COOLDOWN_HOURS := COOLDOWN_HOURS cfg;
  ALERT_MODE := ALERT_MODE cfg; ALERT_TS_FILE := path;
  ALERT_COOLDOWN_MIN := ALERT_COOLDOWN_MIN cfg;
  ALERT_SLACK_WEBHOOK := ALERT_SLACK_WEBHOOK cfg;
  ALERT_SLACK_USE_BLOCKS := ALERT_SLACK_USE_BLOCKS cfg;
  ALERT_EMAIL_TO := ALERT_EMAIL_TO cfg; ALERT_EMAIL_FROM := ALERT_EMAIL_FROM cfg;
  ALERT_EMAIL_SUBJECT_PREFIX := ALERT_EMAIL_SUBJECT_PREFIX cfg;
  ALERT_COMMAND := ALERT_COMMAND cfg |}.

Definition set_loadavg (content : option string) (e : Env) : Env := {|
  now := now e; hostname := hostname e; proc_loadavg := content;
  get_code := get_code e; patch_code := patch_code e;
  patch_success := patch_success e;
  has_sendmail := has_sendmail e; has_mail := has_mail e |}.

(** Reading the load fails: the file cannot be opened, it has fewer than
    two fields, or its second field is not a float. *)
Definition load_read_fails (py_float : string -> option Q) (e : Env) : Prop :=
  match proc_loadavg e with
  | None => True
  | Some content =>
      match Py.split content !! 1%nat with
      | None => True
      | Some field => py_float field = None
      end
  end.

(** The three state files are three paths. *)
Definition distinct_files (cfg : Config) : Prop :=
  CACHE_FILE cfg <> TIMESTAMP_FILE cfg
  /\ ALERT_TS_FILE cfg <> CACHE_FILE cfg
  /\ ALERT_TS_FILE cfg <> TIMESTAMP_FILE cfg.

(** The cached mode as a run reads it. *)
Definition cached (cfg : Config) (w : World) : string :=
  (read_file (CACHE_FILE cfg) w).1.

Definition timestamp_present (cfg : Config) (w : World) : Prop :=
  is_Some (files w !! TIMESTAMP_FILE cfg).


(** ** Concrete samples *)

(** [float()] restricted to plain decimal notation (sign, digits, one
    optional point), enough for what the kernel writes in /proc/loadavg;
    it instantiates [py_float] where the model is run on concrete data. *)
Fixpoint split_point (s : string) : string * option string :=
  match s with
  | EmptyString => (EmptyString, None)
  | String c r =>
      if Ascii.eqb c "." then (EmptyString, Some r)
      else let '(a, b) := split_point r in (String c a, b)
  end.

Definition decimal_magnitude (s : string) : option Q :=
  let '(ip, fp) := split_point s in
  let fp := default EmptyString fp in
  if decide (ip = EmptyString /\ fp = EmptyString) then None
  else
    i ← NilEmpty.uint_of_string ip;
    f ← NilEmpty.uint_of_string fp;
    let scale := Z.to_pos (10 ^ Z.of_nat (String.length fp)) in
    Some ((Z.of_uint i * Zpos scale + Z.of_uint f) # scale)%Q.

Definition decimal_float (s : string) : option Q :=
  match Py.strip s with
  | String c r =>
      if Ascii.eqb c "-" then Qopp <$> decimal_magnitude r
      else if Ascii.eqb c "+" then decimal_magnitude r
      else decimal_magnitude (String c r)
  | EmptyString => None
  end.

Definition sample_cfg : Config := {|
  ZONE_ID := Some "zone"; CF_API_TOKEN := Some "token"; LOAD_THRESHOLD := 7;
  LOW_LOAD_MODE := "medium"; CACHE_FILE := "/tmp/cf_mode_cache";
  TIMESTAMP_FILE := "/tmp/cf_under_attack_timestamp"; COOLDOWN_HOURS := 3;
  ALERT_MODE := "slack"; ALERT_TS_FILE := "/tmp/cf_under_attack_alert_ts";
  ALERT_COOLDOWN_MIN := 30; ALERT_SLACK_WEBHOOK := "https://hooks.example/T";
  ALERT_SLACK_USE_BLOCKS := false; ALERT_EMAIL_TO := ""; ALERT_EMAIL_FROM := "";
  ALERT_EMAIL_SUBJECT_PREFIX := ""; ALERT_COMMAND := "" |}.

(** A reading with 5-minute load [load] at time [t]; [ok] tells whether
    the API accepts a PATCH. *)
Definition sample_env (load : string) (t : Z) (ok : bool) : Env := {|
  now := t; hostname := "web1";
  proc_loadavg := Some ("0.10 " ++ load ++ " 0.30 1/100 4242");
  get_code := 200; patch_code := if ok then 200 else 500; patch_success := ok;
  has_sendmail := false; has_mail := false |}.

(** A world whose cache file holds [cache], whose timestamp file holds
    [ts] when there is one, and whose zone is at [zone]. *)
Definition sample_world (cache : string) (ts : option string) (zone : string) : World := {|
  files :=
    match ts with
    | Some t => <["/tmp/cf_under_attack_timestamp" := t]> {["/tmp/cf_mode_cache" := cache]}
    | None => {["/tmp/cf_mode_cache" := cache]}
    end;
  zone_level := zone; trace := [] |}.

(** A reading taken while the API answers 503. *)
Definition sample_outage : Env := {|
  now := 1700000000; hostname := "web1";
  proc_loadavg := Some "0.10 9.30 0.30 1/100 4242";
  get_code := 503; patch_code := 503; patch_success := false;
  has_sendmail := false; has_mail := false |}.

(** ** Configuration file *)

(** String operations [load_config] uses, on ASCII text. *)
Module Text.

Definition DQUOTE : ascii := "034"%char.
Definition SQUOTE : ascii := "039"%char.
Definition BACKSLASH : ascii := "092"%char.
Definition HASH : ascii := "035"%char.
Definition EQUALS : ascii := "061"%char.

(** [c in s] for a character [c] *)
Fixpoint contains (c : ascii) (s : string) : bool :=
  match s with
  | EmptyString => false
  | String d r => Ascii.eqb d c || contains c r
  end.

(** [s.split(c, 1)]: the text before the first [c] and the text after it;
    all of [s] and nothing when [c] is not in [s]. *)
Fixpoint partition (c : ascii) (s : string) : string * string :=
  match s with
  | EmptyString => (EmptyString, EmptyString)
  | String d r =>
      if Ascii.eqb d c then (EmptyString, r)
      else let '(a, b) := partition c r in (String d a, b)
  end.

(** [s.startswith(c)] *)
Definition startswith (c : ascii) (s : string) : bool :=
  match s with String d _ => Ascii.eqb d c | EmptyString => false end.

(** [s.endswith(c)] *)
Fixpoint endswith (c : ascii) (s : string) : bool :=
  match s with
  | EmptyString => false
  | String d EmptyString => Ascii.eqb d c
  | String _ r => endswith c r
  end.

(** [s[:-1]] *)
Fixpoint drop_last (s : string) : string :=
  match s with
  | EmptyString => EmptyString
  | String _ EmptyString => EmptyString
  | String d r => String d (drop_last r)
  end.

(** [s[1:-1]] *)
Definition drop_ends (s : string) : string :=
  match s with String _ r => drop_last r | EmptyString => EmptyString end.

(** The search of line 34, for a double quote that does not follow a
    backslash.  [escaped] tells whether the previous character was a
    backslash. *)
Fixpoint unescaped_quote_from (escaped : bool) (s : string) : bool :=
  match s with
  | EmptyString => false
  | String d r =>
      (Ascii.eqb d DQUOTE && negb escaped) || unescaped_quote_from (Ascii.eqb d BACKSLASH) r
  end.

Definition has_unescaped_quote (s : string) : bool := unescaped_quote_from false s.

(** [s.lower()] *)
Definition lower_char (c : ascii) : ascii :=
  let n := nat_of_ascii c in
  if (65 <=? n)%nat && (n <=? 90)%nat then ascii_of_nat (n + 32) else c.

Fixpoint lower (s : string) : string :=
  match s with
  | EmptyString => EmptyString
  | String c r => String (lower_char c) (lower r)
  end.

(** The lines of a text file as iterating over it yields them, without
    their ends: reading translates each of LF, CR and CR LF to a line end
    (CR LF gives one more, empty, line here, which [load_config] skips as
    it skips blank lines). *)
Fixpoint file_lines (s : string) : list string :=
  match s with
  | EmptyString => [EmptyString]
  | String c r =>
      if Ascii.eqb c "010"%char || Ascii.eqb c "013"%char then EmptyString :: file_lines r
      else
        match file_lines r with
        | l :: ls => String c l :: ls
        | [] => [String c EmptyString]
        end
  end.

End Text.

(** One turn of the loop of [load_config] (lines 29-44): the assignment the
    line makes, [None] where the loop goes on to the next line. *)
Definition parse_line (raw : string) : option (string * string) :=
  let line := Py.strip raw in
  if bool_decide (line = EmptyString) || Text.startswith Text.HASH line then None
  else
    let line :=
      if Text.contains Text.HASH line && negb (Text.has_unescaped_quote line)
      then Py.strip (Text.partition Text.HASH line).1
      else line in
    if negb (Text.contains Text.EQUALS line) then None
    else
      let '(k, v) := Text.partition Text.EQUALS line in
      let k := Py.strip k in
      let v := Py.strip v in
      let v :=
        if (Text.startswith Text.SQUOTE v || Text.startswith Text.DQUOTE v)
           && (Text.endswith Text.SQUOTE v || Text.endswith Text.DQUOTE v)
        then Text.drop_ends v
        else v in
      Some (k, v).

(** What one line does to the dictionary. *)
Definition assign (cfg : gmap string string) (raw : string) : gmap string string :=
  match parse_line raw with
  | Some (k, v) => <[k := v]> cfg
  | None => cfg
  end.

(** The dictionary [load_config] builds from the lines of the file. *)
Definition load_config_lines (lines : list string) : gmap string string :=
  foldl assign ∅ lines.

(** [v] between double quotes *)
Definition quoted (v : string) : string :=
  String Text.DQUOTE (v ++ String Text.DQUOTE EmptyString).

(** [load_config(path)] on the content of the file at [path], [None] when
    there is no such file; the result [None] stands for [sys.exit(1)]. *)
Definition load_config (file : option string) : option (gmap string string) :=
  match file with
  | Some content => Some (load_config_lines (Text.file_lines content))
  | None => None
  end.

(** [cfg_get(cfg, key, default, cast)]: [cast] gives [None] where the call
    raises.  A missing key gives [default], on which the casts of the
    program ([float] on a number) change nothing. *)
Definition cfg_get {A : Type} (cfg : gmap string string) (key : string) (default : A)
    (cast : string -> option A) : A :=
  match cfg !! key with
  | Some v => match cast v with Some a => a | None => default end
  | None => default
  end.

(** The values [main] and [send_alert] read from the dictionary (lines
    224-245 and 256-267). *)
Definition config_of (py_float : string -> option Q) (e : Env)
    (cfg : gmap string string) : Config := {|
  ZONE_ID := cfg !! "ZONE_ID";
  CF_API_TOKEN := cfg !! "CF_API_TOKEN";
  LOAD_THRESHOLD := cfg_get cfg "LOAD_THRESHOLD" 7%Q py_float;
  LOW_LOAD_MODE := cfg_get cfg "LOW_LOAD_MODE" "medium" Some;
  CACHE_FILE := cfg_get cfg "CACHE_FILE" "/tmp/cf_mode_cache" Some;
  TIMESTAMP_FILE := cfg_get cfg "TIMESTAMP_FILE" "/tmp/cf_under_attack_timestamp" Some;
  COOLDOWN_HOURS := cfg_get cfg "COOLDOWN_HOURS" 3%Q py_float;
  ALERT_MODE := Text.lower (cfg_get cfg "ALERT_MODE" "none" Some);
  ALERT_TS_FILE := cfg_get cfg "ALERT_TS_FILE" "/tmp/cf_under_attack_alert_ts" Some;
  ALERT_COOLDOWN_MIN := cfg_get cfg "ALERT_COOLDOWN_MIN" 30%Q py_float;
  ALERT_SLACK_WEBHOOK := cfg_get cfg "ALERT_SLACK_WEBHOOK" EmptyString Some;
  ALERT_SLACK_USE_BLOCKS :=
    bool_decide (Text.lower (cfg_get cfg "ALERT_SLACK_USE_BLOCKS" "true" Some) = "true");
  ALERT_EMAIL_TO := cfg_get cfg "ALERT_EMAIL_TO" EmptyString Some;
  ALERT_EMAIL_FROM := cfg_get cfg "ALERT_EMAIL_FROM" ("cf-guard@" ++ hostname e) Some;
  ALERT_EMAIL_SUBJECT_PREFIX := cfg_get cfg "ALERT_EMAIL_SUBJECT_PREFIX" "[CF Guard]" Some;
  ALERT_COMMAND := cfg_get cfg "ALERT_COMMAND" EmptyString Some
|}.

(** [e] with another status for the PATCH. *)
Definition set_patch_code (c : Z) (e : Env) : Env := {|
  now := now e; hostname := hostname e; proc_loadavg := proc_loadavg e;
  get_code := get_code e; patch_code := c; patch_success := patch_success e;
  has_sendmail := has_sendmail e; has_mail := has_mail e |}.

(** ** Replies of the API *)

(** [cf_request], [cf_get_mode] and [cf_set_mode] on the reply itself, where
    the definitions above take the outcome ([get_code], [patch_success],
    the level of the zone) as given.  [urlopen], the decoding of the body
    and [json.loads] are inputs: a reply says what they gave. *)
Module Api.

#[local] Set Warnings "-register-all".

(** A value [json.loads] builds.  The members of an object are in the order
    of the text; of two members with one name the later one counts. *)
Inductive Json :=
| JNull
| JBool (b : bool)
| JNum (x : Q)
| JStr (s : string)
| JArr (items : list Json)
| JObj (members : list (string * Json)).

(** The body of a reply: nothing, a JSON text with its value, or bytes that
    reading, decoding or [json.loads] rejects with the exception [err]. *)
Inductive Body :=
| NoBody
| Doc (j : Json)
| Garbage (err : string).

(** What [urlopen] does: it returns, it raises [HTTPError] ([err] is the
    text of the exception), or it raises anything else. *)
Inductive Reply :=
| Answer (code : Z) (body : Body)
| HTTPError (code : Z) (body : Body) (err : string)
| Failure (err : string).

(** [d.get(key)] on the dict of an object *)
Fixpoint member (key : string) (members : list (string * Json)) : option Json :=
  match members with
  | [] => None
  | (k, v) :: rest =>
      match member key rest with
      | Some later => Some later
      | None => if String.eqb k key then Some v else None
      end
  end.

(** [bool(j)] *)
Definition truthy (j : Json) : bool :=
  match j with
  | JNull => false
  | JBool b => b
  | JNum x => negb (Qeq_bool x 0)
  | JStr s => negb (String.eqb s EmptyString)
  | JArr items => match items with [] => false | _ => true end
  | JObj members => match members with [] => false | _ => true end
  end.

(** [json.loads(text or "{}")]; [inr] stands for the exception. *)
Definition loads (body : Body) : Json + string :=
  match body with
  | NoBody => inl (JObj [])
  | Doc j => inl j
  | Garbage err => inr err
  end.

Definition failed (err : string) : Json :=
  JObj [("success", JBool false); ("error", JStr err)].

Definition cf_request (reply : Reply) : Z * Json :=
  match reply with
  | Answer code body =>
      match loads body with
      | inl payload => (code, payload)
      | inr err => (0, failed err)
      end
  | HTTPError code body err =>
      match loads body with
      | inl payload => (code, payload)
      | inr _ => (code, failed err)
      end
  | Failure err => (0, failed err)
  end.

(** The value returned is whatever the reply holds at result.value, a
    string or not; [JStr EmptyString] is the empty string of lines 127-130. *)
Definition cf_get_mode (reply : Reply) : Json :=
  let '(code, payload) := cf_request reply in
  if code =? 200 then
    match payload with
    | JObj members =>
        match default (JObj []) (member "result" members) with
        | JObj result => default (JStr EmptyString) (member "value" result)
        | _ => JStr EmptyString
        end
    | _ => JStr EmptyString
    end
  else JStr EmptyString.

Definition cf_set_mode (reply : Reply) : Z * bool * Json :=
  let '(code, payload) := cf_request reply in
  let success :=
    match payload with
    | JObj members => truthy (default JNull (member "success" members))
    | _ => false
    end in
  (code, success, payload).

(** The reply of a zone at level [value] to the GET. *)
Definition level_reply (value : string) : Reply :=
  Answer 200 (Doc (JObj [("success", JBool true);
                         ("result", JObj [("id", JStr "security_level");
                                          ("value", JStr value)])])).

End Api.

(** ** More samples *)

(** [cfg] with another alert mode. *)
Definition set_alert_mode (mode : string) (cfg : Config) : Config := {|
  ZONE_ID := ZONE_ID cfg; CF_API_TOKEN := CF_API_TOKEN cfg;
  LOAD_THRESHOLD := LOAD_THRESHOLD cfg;
  LOW_LOAD_MODE := LOW_LOAD_MODE cfg; CACHE_FILE := CACHE_FILE cfg;
  TIMESTAMP_FILE := TIMESTAMP_FILE cfg; COOLDOWN_HOURS := COOLDOWN_HOURS cfg;
  ALERT_MODE := mode; ALERT_TS_FILE := ALERT_TS_FILE cfg;
  ALERT_COOLDOWN_MIN := ALERT_COOLDOWN_MIN cfg;
  ALERT_SLACK_WEBHOOK := ALERT_SLACK_WEBHOOK cfg;
  ALERT_SLACK_USE_BLOCKS := ALERT_SLACK_USE_BLOCKS cfg;
  ALERT_EMAIL_TO := ALERT_EMAIL_TO cfg; ALERT_EMAIL_FROM := ALERT_EMAIL_FROM cfg;
  ALERT_EMAIL_SUBJECT_PREFIX := ALERT_EMAIL_SUBJECT_PREFIX cfg;
  ALERT_COMMAND := ALERT_COMMAND cfg |}.

(** The lines of a configuration file that names no zone. *)
Definition sample_conf : list string :=
  [ "# cf-guard"; "CF_API_TOKEN = 'token'  # keep secret"; "";
    "LOAD_THRESHOLD=7"; "LOAD_THRESHOLD = 9.5"; "COOLDOWN_HOURS=1" ].

(** * Properties *)

(** ** The builtins on samples *)

Example strip_ex : Py.strip "  under_attack
" = "under_attack".
Proof. reflexivity. Qed.

Example split_ex : Py.split "0.52 0.58 0.59 1/257 12345
" = ["0.52"; "0.58"; "0.59"; "1/257"; "12345"].
Proof. reflexivity. Qed.

Example int_ex : Py.int " 1_700 " = Some 1700 /\ Py.int "-12" = Some (-12)
  /\ Py.int "12_" = None /\ Py.int "" = None /\ Py.int "under_attack" = None.
Proof. repeat split; reflexivity. Qed.

Example str_ex : Py.str 1700000000 = "1700000000" /\ Py.str (-5) = "-5" /\ Py.str 0 = "0".
Proof. repeat split; reflexivity. Qed.

Example round2_ex :
  Py.round2 (7004 # 1000) = (700 # 100)%Q /\ Py.round2 (6996 # 1000) = (700 # 100)%Q
  /\ Py.round2 (125 # 1000) = (12 # 100)%Q /\ Py.round2 (-(125 # 1000)) = (-12 # 100)%Q
  /\ Py.round2 (135 # 1000) = (14 # 100)%Q.
Proof. repeat split; reflexivity. Qed.

Example trunc_ex : Py.trunc (6 # 10) = 0 /\ Py.trunc (-(16 # 10)) = -1.
Proof. repeat split; reflexivity. Qed.


(** ** The scenarios of the specification *)

(** Scenario A: cached and actual mode medium, threshold 7.0, load 9.3.
    The zone is set to under_attack, the timestamp is set to [now] and
    one alert is delivered. *)
Example scenario_A :
  let r := main decimal_float sample_cfg (sample_env "9.30" 1700000000 true)
             (sample_world "medium" None "medium") in
  r.1 = 0 /\ zone_level r.2 = "under_attack"
  /\ files r.2 !! CACHE_FILE sample_cfg = Some "under_attack"
  /\ files r.2 !! TIMESTAMP_FILE sample_cfg = Some "1700000000"
  /\ trace r.2 =
       [Get; Print (Setting "under_attack"); Patch "under_attack";
        Alert (Entered "web1" (930 # 100) (700 # 100) 1700000000);
        Slack "https://hooks.example/T"
          (Text (Entered "web1" (930 # 100) (700 # 100) 1700000000))].
Proof. repeat split; by vm_compute. Qed.

(** Scenario B: under_attack for 7200 s, cooldown 3 h, load 1.0.  Nothing
    is written and nothing is sent but the GET. *)
Example scenario_B :
  let w := sample_world "under_attack" (Some "1700000000") "under_attack" in
  main decimal_float sample_cfg (sample_env "1.00" 1700007200 true) w
  = (0, with_events [Get] w).
Proof. by vm_compute. Qed.

(** Scenario C: as B after 11000 s.  The zone is set to medium, the
    timestamp is removed and the exit alert is delivered. *)
Example scenario_C :
  let r := main decimal_float sample_cfg (sample_env "1.00" 1700011000 true)
             (sample_world "under_attack" (Some "1700000000") "under_attack") in
  r.1 = 0 /\ zone_level r.2 = "medium"
  /\ files r.2 !! CACHE_FILE sample_cfg = Some "medium"
  /\ files r.2 !! TIMESTAMP_FILE sample_cfg = None
  /\ trace r.2 =
       [Get; Print (Setting "medium"); Patch "medium";
        Alert (Exited "web1" "medium" (100 # 100) 1700011000);
        Slack "https://hooks.example/T"
          (Text (Exited "web1" "medium" (100 # 100) 1700011000))].
Proof. repeat split; by vm_compute. Qed.

(** Scenario D: the operator has set the zone to essentially_off while the
    cache says under_attack.  The cache is synced, the timestamp removed
    and the manual change reported; the run then goes on and sets the
    zone to the normal mode, whose alert falls in the cooldown of the
    first. *)
Example scenario_D :
  let r := main decimal_float sample_cfg (sample_env "1.00" 1700011000 true)
             (sample_world "under_attack" (Some "1700000000") "essentially_off") in
  r.1 = 0 /\ zone_level r.2 = "medium"
  /\ files r.2 !! CACHE_FILE sample_cfg = Some "medium"
  /\ files r.2 !! TIMESTAMP_FILE sample_cfg = None
  /\ trace r.2 =
       [Get; Print (Syncing "under_attack" "essentially_off");
        Alert (ManualOther "web1" "essentially_off" 1700011000);
        Slack "https://hooks.example/T"
          (Text (ManualOther "web1" "essentially_off" 1700011000));
        Print (Setting "medium"); Patch "medium";
        Alert (Exited "web1" "medium" (100 # 100) 1700011000)].
Proof. repeat split; by vm_compute. Qed.

(** ** Facts on the builtins *)

Lemma digit_not_space c : Py.isdigit c = true -> Py.isspace c = false.
Proof.
  unfold Py.isdigit, Py.isspace. generalize (nat_of_ascii c). intros n H.
  apply andb_true_iff in H as [H1 H2].
  apply Nat.leb_le in H1. apply Nat.leb_le in H2.
  apply orb_false_iff. split; apply andb_false_iff.
  - right. apply Nat.leb_gt. lia.
  - right. apply Nat.leb_gt. lia.
Qed.

Lemma rstrip_no_space s :
  Py.all_chars (fun c => negb (Py.isspace c)) s = true -> Py.rstrip s = s.
Proof.
  induction s as [|c r IH]; simpl; [done|].
  intros [Hc Hr]%andb_true_iff. rewrite (IH Hr).
  apply negb_true_iff in Hc. rewrite Hc. by destruct r.
Qed.

Lemma strip_no_space s :
  Py.all_chars (fun c => negb (Py.isspace c)) s = true -> Py.strip s = s.
Proof.
  intros H. unfold Py.strip.
  assert (Py.lstrip s = s) as ->; [|by apply rstrip_no_space].
  destruct s as [|c r]; simpl in *; [done|].
  apply andb_true_iff in H as [Hc _]. apply negb_true_iff in Hc. by rewrite Hc.
Qed.

Lemma all_chars_impl (P R : ascii -> bool) s :
  (forall c, P c = true -> R c = true) -> Py.all_chars P s = true -> Py.all_chars R s = true.
Proof.
  intros HPR. induction s as [|c r IH]; simpl; [done|].
  intros [Hc Hr]%andb_true_iff. rewrite (HPR _ Hc), (IH Hr). done.
Qed.

Lemma digits_no_space s :
  Py.all_chars Py.isdigit s = true -> Py.all_chars (fun c => negb (Py.isspace c)) s = true.
Proof.
  apply all_chars_impl. intros c H. by rewrite (digit_not_space _ H).
Qed.

Lemma uint_digits d : Py.all_chars Py.isdigit (NilEmpty.string_of_uint d) = true.
Proof. induction d; simpl; auto. Qed.

Lemma literal_digits_all prev s :
  Py.all_chars Py.isdigit s = true -> (s <> EmptyString \/ prev = true) ->
  Py.literal_digits prev s = Some s.
Proof.
  revert prev. induction s as [|c r IH]; intros prev H Hne; simpl in *.
  - destruct Hne as [ ? | -> ]; done.
  - apply andb_true_iff in H as [Hc Hr]. rewrite Hc.
    rewrite (IH true Hr); [done | by right].
Qed.

Lemma unsigned_literal_uint d :
  d <> Decimal.Nil ->
  Py.unsigned_literal (NilEmpty.string_of_uint d) = Some (Z.of_uint d).
Proof.
  intros Hd. unfold Py.unsigned_literal.
  rewrite literal_digits_all.
  - simpl. by rewrite NilEmpty.usu.
  - apply uint_digits.
  - left. destruct d; simpl; done.
Qed.

Lemma to_uint_nonnil p : Pos.to_uint p <> Decimal.Nil.
Proof.
  intros H. pose proof (DecimalPos.Unsigned.of_to p) as Hp.
  rewrite H in Hp. discriminate.
Qed.

Lemma first_digit d :
  d <> Decimal.Nil ->
  exists c r, NilEmpty.string_of_uint d = String c r /\ Py.isdigit c = true.
Proof. destruct d; [done|..]; intros _; simpl; eauto. Qed.

Lemma digit_not_sign c :
  Py.isdigit c = true -> Ascii.eqb c "+" = false /\ Ascii.eqb c "-" = false.
Proof.
  intros H. split; apply Ascii.eqb_neq; intros ->; discriminate.
Qed.

Lemma int_uint d :
  d <> Decimal.Nil -> Py.int (NilEmpty.string_of_uint d) = Some (Z.of_uint d).
Proof.
  intros Hd. unfold Py.int.
  rewrite strip_no_space by (apply digits_no_space, uint_digits).
  destruct (first_digit d Hd) as (c & r & Hs & Hc).
  rewrite <- (unsigned_literal_uint d Hd). rewrite Hs.
  destruct (digit_not_sign c Hc) as [-> ->]. done.
Qed.

Lemma int_neg_uint d :
  d <> Decimal.Nil ->
  Py.int (String "-" (NilEmpty.string_of_uint d)) = Some (- Z.of_uint d).
Proof.
  intros Hd. unfold Py.int.
  rewrite strip_no_space.
  - simpl. by rewrite (unsigned_literal_uint d Hd).
  - simpl. apply digits_no_space, uint_digits.
Qed.

(** Reading back a number the program wrote gives that number. *)
Lemma int_str (n : Z) : Py.int (Py.str n) = Some n.
Proof.
  destruct n as [|p|p]; [done|..]; unfold Py.str; simpl.
  - pose proof (to_uint_nonnil p) as Hp.
    assert (NilZero.string_of_uint (Pos.to_uint p)
            = NilEmpty.string_of_uint (Pos.to_uint p)) as ->
      by (by destruct (Pos.to_uint p)).
    rewrite (int_uint _ Hp). f_equal.
    exact (DecimalZ.of_to (Zpos p)).
  - pose proof (to_uint_nonnil p) as Hp.
    assert (NilZero.string_of_uint (Pos.to_uint p)
            = NilEmpty.string_of_uint (Pos.to_uint p)) as ->
      by (by destruct (Pos.to_uint p)).
    rewrite (int_neg_uint _ Hp). f_equal.
    exact (DecimalZ.of_to (Zneg p)).
Qed.

Lemma str_nonempty n : Py.str n <> EmptyString.
Proof.
  intros H. pose proof (int_str n) as Hn. rewrite H in Hn. discriminate.
Qed.

Lemma strip_str n : Py.strip (Py.str n) = Py.str n.
Proof.
  apply strip_no_space.
  destruct n as [|p|p]; [done|..]; unfold Py.str; simpl.
  - assert (NilZero.string_of_uint (Pos.to_uint p)
            = NilEmpty.string_of_uint (Pos.to_uint p)) as ->
      by (pose proof (to_uint_nonnil p); by destruct (Pos.to_uint p)).
    apply digits_no_space, uint_digits.
  - assert (NilZero.string_of_uint (Pos.to_uint p)
            = NilEmpty.string_of_uint (Pos.to_uint p)) as ->
      by (pose proof (to_uint_nonnil p); by destruct (Pos.to_uint p)).
    apply digits_no_space, uint_digits.
Qed.

Lemma round_half_even_bounds x :
  Qfloor x <= Py.round_half_even x <= Qfloor x + 1.
Proof.
  unfold Py.round_half_even.
  destruct (_ ?= _)%Q; [destruct (Z.even _)|..]; lia.
Qed.

Lemma round_half_even_mono x y :
  (x <= y)%Q -> Py.round_half_even x <= Py.round_half_even y.
Proof.
  intros Hxy.
  pose proof (Qfloor_resp_le _ _ Hxy) as Hf.
  destruct (Z.eq_dec (Qfloor x) (Qfloor y)) as [Heq|Hne].
  - unfold Py.round_half_even. rewrite <- Heq.
    destruct (Qcompare_spec (x - inject_Z (Qfloor x)) (1 # 2)) as [Hx|Hx|Hx];
      destruct (Qcompare_spec (y - inject_Z (Qfloor x)) (1 # 2)) as [Hy|Hy|Hy];
      try destruct (Z.even _); try lia; exfalso; lra.
  - pose proof (round_half_even_bounds x). pose proof (round_half_even_bounds y). lia.
Qed.

Lemma round2_mono x y : (x <= y)%Q -> (Py.round2 x <= Py.round2 y)%Q.
Proof.
  intros Hxy. unfold Py.round2, Qle. simpl.
  apply Z.mul_le_mono_nonneg_r; [lia|].
  apply round_half_even_mono. lra.
Qed.

(** When the raw load does not exceed the raw threshold, the rounded load
    does not exceed the rounded threshold either. *)
Lemma gt_round2_le x y : (x <= y)%Q -> Py.gt (Py.round2 x) (Py.round2 y) = false.
Proof.
  intros Hxy. unfold Py.gt. apply negb_false_iff, Qle_bool_iff, round2_mono, Hxy.
Qed.

Lemma gt_spec a b : Py.gt a b = true <-> (b < a)%Q.
Proof.
  unfold Py.gt. rewrite negb_true_iff. split.
  - intros H. apply Qnot_le_lt. intros Hle. apply Qle_bool_iff in Hle. congruence.
  - intros H. destruct (Qle_bool a b) eqn:E; [|done].
    apply Qle_bool_iff in E. lra.
Qed.

(** ** State passing and the steps of a run *)

Ltac unfold_m :=
  unfold fire, send_alert, deliver, alert_slack, alert_email, alert_command,
    can_alert, last_alert, record_alert_ts, cf_get_mode, cf_set_mode,
    activated_at, write_file, remove_file, read_file, isfile, when, emit,
    set_files, set_zone, gets, modify, mbind, M_bind, mret, M_ret.

Lemma run_bind {A B : Type} (m : M A) (f : A -> M B) w :
  (m ≫= f) w = f (m w).1 (m w).2.
Proof. unfold mbind, M_bind. by destruct (m w). Qed.


Lemma with_events_nil w : with_events [] w = w.
Proof. destruct w. unfold with_events. simpl. by rewrite app_nil_r. Qed.

Lemma with_events_app a b w :
  with_events b (with_events a w) = with_events (a ++ b)%list w.
Proof. unfold with_events. simpl. by rewrite app_assoc. Qed.


Lemma can_alert_world e f c w : (can_alert e f c w).2 = w.
Proof. unfold_m. by case_decide. Qed.

(** [deliver] touches no file and logs at most one delivery attempt. *)
Lemma deliver_effect cfg e m h t l th w :
  exists evs,
    (deliver cfg e m h t l th w).2 = with_events evs w
    /\ forallb is_delivery evs = true
    /\ deliveries evs = (if channel_ready cfg e then 1 else 0)%nat.
Proof.
  unfold channel_ready. unfold_m.
  repeat case_decide; repeat case_bool_decide; simpl;
    repeat match goal with |- context [if ?b then _ else _] =>
      destruct b eqn:?; simpl end;
    try (by exists []; rewrite with_events_nil);
    try (by eexists [_]).
Qed.

(** What a call of [send_alert] can do: log delivery attempts and rewrite
    the alert timestamp file. *)
Lemma send_alert_effect cfg e m h t l th w :
  exists (stamped : bool) evs,
    files (send_alert cfg e m h t l th w).2
      = (if stamped then <[ALERT_TS_FILE cfg := Py.str (now e)]> (files w) else files w)
    /\ zone_level (send_alert cfg e m h t l th w).2 = zone_level w
    /\ trace (send_alert cfg e m h t l th w).2 = (trace w ++ evs)%list
    /\ forallb is_delivery evs = true.
Proof.
  destruct (deliver_effect cfg e m h t l th w) as (evs & Hd & Hevs & _).
  set (r := send_alert cfg e m h t l th w).
  assert (r.2 = w \/ r.2 = (record_alert_ts e (ALERT_TS_FILE cfg) (with_events evs w)).2)
    as [Hr|Hr].
  { subst r. unfold send_alert. case_decide; [by left|].
    rewrite run_bind, can_alert_world.
    destruct (can_alert _ _ _ w).1; simpl; [|by left].
    right. by rewrite run_bind, Hd. }
  - exists false, []. rewrite Hr. by rewrite app_nil_r.
  - rewrite Hr. unfold_m. case_decide; simpl.
    + by exists false, evs.
    + by exists true, evs.
Qed.

Lemma fire_effect cfg e m t l th w :
  exists (stamped : bool) evs,
    files (fire cfg e m t l th w).2
      = (if stamped then <[ALERT_TS_FILE cfg := Py.str (now e)]> (files w) else files w)
    /\ zone_level (fire cfg e m t l th w).2 = zone_level w
    /\ trace (fire cfg e m t l th w).2 = (trace w ++ Alert m :: evs)%list
    /\ forallb is_delivery evs = true.
Proof.
  unfold fire. rewrite run_bind. unfold emit, modify. simpl.
  destruct (send_alert_effect cfg e m (hostname e) t l th (with_events [Alert m] w))
    as (b & evs & Hf & Hz & Ht & Hd).
  exists b, evs. rewrite Hf, Hz, Ht. simpl. by rewrite <- app_assoc.
Qed.

Lemma can_alert_value e f c w :
  f <> EmptyString ->
  (can_alert e f c w).1 = (Py.trunc (c * 60) <=? now e - (last_alert f w).1).
Proof. intros Hf. unfold can_alert. by case_decide. Qed.

Lemma send_alert_suppressed cfg e m h t l th w :
  ALERT_MODE cfg <> "none" ->
  (can_alert e (ALERT_TS_FILE cfg) (ALERT_COOLDOWN_MIN cfg) w).1 = false ->
  send_alert cfg e m h t l th w = (tt, w).
Proof.
  intros Hm Hc. unfold send_alert. case_decide; [done|].
  rewrite run_bind, can_alert_world, Hc. done.
Qed.

Lemma send_alert_sent cfg e m h t l th w :
  ALERT_MODE cfg <> "none" ->
  (can_alert e (ALERT_TS_FILE cfg) (ALERT_COOLDOWN_MIN cfg) w).1 = true ->
  send_alert cfg e m h t l th w =
    record_alert_ts e (ALERT_TS_FILE cfg) (deliver cfg e m h t l th w).2.
Proof.
  intros Hm Hc. unfold send_alert. case_decide; [done|].
  rewrite run_bind, can_alert_world, Hc. simpl. by rewrite run_bind.
Qed.

(** Reading back the time of the last alert. *)
Lemma last_alert_written f n w :
  files w !! f = Some (Py.str n) -> (last_alert f w).1 = n.
Proof.
  intros Hf. unfold last_alert. rewrite run_bind. unfold read_file, gets. simpl.
  rewrite Hf, strip_str.
  assert (or_else (Py.str n) "0" = Py.str n) as ->.
  { pose proof (str_nonempty n). by destruct (Py.str n). }
  by rewrite int_str.
Qed.

Lemma last_alert_files f w1 w2 :
  files w1 !! f = files w2 !! f -> (last_alert f w1).1 = (last_alert f w2).1.
Proof.
  intros Hf. unfold last_alert. rewrite !run_bind. unfold read_file, gets. simpl.
  by rewrite Hf.
Qed.

Lemma or_else_empty x : or_else x EmptyString = x.
Proof. by destruct x. Qed.

Lemma sync_cache_same cfg e l th actual last w :
  actual = last -> sync_cache cfg e l th actual last w = (last, w).
Proof. intros ->. unfold sync_cache. by case_decide. Qed.

Lemma sync_cache_drift cfg e l th actual last w :
  actual <> last ->
  sync_cache cfg e l th actual last w =
    (actual,
     (fire cfg e (manual_msg e actual) actual l th
        (with_files
           (if decide (actual = UNDER_ATTACK)
            then <[TIMESTAMP_FILE cfg := Py.str (now e)]> (<[CACHE_FILE cfg := actual]> (files w))
            else delete (TIMESTAMP_FILE cfg) (<[CACHE_FILE cfg := actual]> (files w)))
           (with_events [Print (Syncing last actual)] w))).2).
Proof.
  intros Hne. unfold sync_cache, manual_msg. case_decide; [|done].
  case_decide; rewrite !run_bind; simpl; done.
Qed.

Lemma determine_target_high cfg e l th last w :
  Py.gt l th = true ->
  determine_target cfg e l th last w =
    (UNDER_ATTACK,
     if decide (last = UNDER_ATTACK) then w
     else with_files (<[TIMESTAMP_FILE cfg := Py.str (now e)]> (files w)) w).
Proof.
  intros Hgt. unfold determine_target. rewrite Hgt, run_bind.
  case_decide.
  - rewrite bool_decide_eq_false_2 by (intros Hn; done). done.
  - rewrite bool_decide_eq_true_2 by done. done.
Qed.

Lemma determine_target_hold cfg e l th w :
  Py.gt l th = false -> timestamp_present cfg w ->
  now e - (activated_at cfg w).1 < cooldown_seconds cfg ->
  determine_target cfg e l th UNDER_ATTACK w = (UNDER_ATTACK, w).
Proof.
  intros Hgt Hp Hlt. unfold determine_target. rewrite Hgt, run_bind.
  unfold isfile at 1, gets at 1. simpl.
  rewrite (bool_decide_eq_true_2 _ Hp). simpl.
  rewrite run_bind.
  assert ((activated_at cfg w).2 = w) as -> by done.
  apply Z.ltb_lt in Hlt. by rewrite Hlt.
Qed.

Lemma determine_target_expire cfg e l th w :
  Py.gt l th = false -> timestamp_present cfg w ->
  cooldown_seconds cfg <= now e - (activated_at cfg w).1 ->
  determine_target cfg e l th UNDER_ATTACK w =
    (LOW_LOAD_MODE cfg, with_files (delete (TIMESTAMP_FILE cfg) (files w)) w).
Proof.
  intros Hgt Hp Hge. unfold determine_target. rewrite Hgt, run_bind.
  unfold isfile at 1, gets at 1. simpl.
  rewrite (bool_decide_eq_true_2 _ Hp). simpl.
  rewrite run_bind.
  assert ((activated_at cfg w).2 = w) as -> by done.
  apply Z.ltb_ge in Hge. by rewrite Hge.
Qed.

Lemma determine_target_low cfg e l th last w :
  Py.gt l th = false -> last <> UNDER_ATTACK \/ ~ timestamp_present cfg w ->
  determine_target cfg e l th last w = (LOW_LOAD_MODE cfg, w).
Proof.
  intros Hgt Hor. unfold determine_target. rewrite Hgt, run_bind.
  unfold isfile at 1, gets at 1. simpl.
  destruct Hor as [Hl|Hp].
  - by rewrite (bool_decide_eq_false_2 _ Hl).
  - unfold timestamp_present in Hp. rewrite (bool_decide_eq_false_2 _ Hp).
    by rewrite andb_false_r.
Qed.

Lemma apply_mode_same cfg e l th last w :
  apply_mode cfg e l th last last w = (tt, w).
Proof. unfold apply_mode. by case_decide. Qed.

Lemma apply_mode_failed cfg e l th last target w :
  target <> last -> patch_success e = false ->
  apply_mode cfg e l th last target w =
    (tt, with_events [Print (Setting target); Patch target; Print (ApiFailed (patch_code e))] w).
Proof.
  intros Hne Hf. unfold apply_mode. case_decide; [|done].
  unfold cf_set_mode. rewrite !run_bind, Hf. simpl.
  unfold emit, modify, with_events. simpl. by rewrite <- !app_assoc.
Qed.

Lemma apply_mode_done cfg e l th last target w :
  target <> last -> patch_success e = true ->
  apply_mode cfg e l th last target w =
    fire cfg e (transition_msg e target l th) target l th
      (with_files (<[CACHE_FILE cfg := target]> (files w))
         (with_zone target (with_events [Print (Setting target); Patch target] w))).
Proof.
  intros Hne Hs. unfold apply_mode, transition_msg. case_decide; [|done].
  unfold cf_set_mode. rewrite !run_bind, Hs. simpl.
  rewrite ?run_bind. simpl.
  case_decide; f_equal; unfold with_files, with_zone, with_events; simpl;
    by rewrite <- app_assoc.
Qed.

(** The four ways [determine_target] can go. *)
Lemma determine_target_cases cfg e l th last w :
  (Py.gt l th = true
   /\ determine_target cfg e l th last w =
        (UNDER_ATTACK,
         if decide (last = UNDER_ATTACK) then w
         else with_files (<[TIMESTAMP_FILE cfg := Py.str (now e)]> (files w)) w))
  \/ (Py.gt l th = false /\ last = UNDER_ATTACK /\ timestamp_present cfg w
      /\ now e - (activated_at cfg w).1 < cooldown_seconds cfg
      /\ determine_target cfg e l th last w = (UNDER_ATTACK, w))
  \/ (Py.gt l th = false /\ last = UNDER_ATTACK /\ timestamp_present cfg w
      /\ cooldown_seconds cfg <= now e - (activated_at cfg w).1
      /\ determine_target cfg e l th last w =
           (LOW_LOAD_MODE cfg, with_files (delete (TIMESTAMP_FILE cfg) (files w)) w))
  \/ (Py.gt l th = false /\ (last <> UNDER_ATTACK \/ ~ timestamp_present cfg w)
      /\ determine_target cfg e l th last w = (LOW_LOAD_MODE cfg, w)).
Proof.
  destruct (Py.gt l th) eqn:Hgt.
  - left. split; [done|]. by apply determine_target_high.
  - right.
    destruct (decide (last = UNDER_ATTACK)) as [->|Hl].
    + destruct (decide (timestamp_present cfg w)) as [Hp|Hp].
      * destruct (Z_lt_le_dec (now e - (activated_at cfg w).1) (cooldown_seconds cfg))
          as [Hlt|Hge].
        -- left. repeat split; try done. by apply determine_target_hold.
        -- right; left. repeat split; try done. by apply determine_target_expire.
      * right; right. split; [done|]. split; [by right|].
        apply determine_target_low; [done|by right].
    + right; right. split; [done|]. split; [by left|].
      apply determine_target_low; [done|by left].
Qed.

Lemma determine_target_world cfg e l th last w :
  zone_level (determine_target cfg e l th last w).2 = zone_level w
  /\ trace (determine_target cfg e l th last w).2 = trace w
  /\ (files (determine_target cfg e l th last w).2 = files w
      \/ files (determine_target cfg e l th last w).2
         = <[TIMESTAMP_FILE cfg := Py.str (now e)]> (files w)
      \/ files (determine_target cfg e l th last w).2
         = delete (TIMESTAMP_FILE cfg) (files w)).
Proof.
  destruct (determine_target_cases cfg e l th last w)
    as [[_ ->] | [(_ & _ & _ & _ & ->) | [(_ & _ & _ & _ & ->) | (_ & _ & ->)]]];
    simpl; try case_decide; simpl; auto.
Qed.

(** What the sync step leaves: the world as it was, or the cache
    rewritten, the timestamp set or removed and the manual change
    reported. *)
Lemma sync_cache_cases cfg e l th actual last w :
  (actual = last /\ sync_cache cfg e l th actual last w = (last, w))
  \/ (actual <> last
      /\ (sync_cache cfg e l th actual last w).1 = actual
      /\ exists (stamped : bool) evs,
           files (sync_cache cfg e l th actual last w).2 =
             (let fs :=
                if decide (actual = UNDER_ATTACK)
                then <[TIMESTAMP_FILE cfg := Py.str (now e)]>
                       (<[CACHE_FILE cfg := actual]> (files w))
                else delete (TIMESTAMP_FILE cfg) (<[CACHE_FILE cfg := actual]> (files w)) in
              if stamped then <[ALERT_TS_FILE cfg := Py.str (now e)]> fs else fs)
           /\ zone_level (sync_cache cfg e l th actual last w).2 = zone_level w
           /\ trace (sync_cache cfg e l th actual last w).2 =
                (trace w ++ Print (Syncing last actual) :: Alert (manual_msg e actual) :: evs)%list
           /\ forallb is_delivery evs = true).
Proof.
  destruct (decide (actual = last)) as [Heq|Hne].
  - left. split; [done|]. by apply sync_cache_same.
  - right. split; [done|]. rewrite (sync_cache_drift _ _ _ _ _ _ _ Hne). simpl.
    split; [done|].
    match goal with |- context [fire ?c ?e ?m ?t ?l ?th ?w0] =>
      destruct (fire_effect c e m t l th w0) as (b & evs & Hf & Hz & Ht & Hd) end.
    exists b, evs. rewrite Hf, Hz, Ht. simpl.
    repeat split; try done. by rewrite <- app_assoc.
Qed.

Lemma delivery_is_quiet evs :
  forallb is_delivery evs = true ->
  forallb (fun ev => negb (changes_level ev)) evs = true.
Proof.
  induction evs as [|ev evs IH]; simpl; [done|].
  intros [Hev Hevs]%andb_true_iff. rewrite (IH Hevs), andb_true_r.
  by destruct ev.
Qed.

Lemma strip_under_attack : Py.strip UNDER_ATTACK = UNDER_ATTACK.
Proof. reflexivity. Qed.

Lemma cached_lookup cfg w m :
  files w !! CACHE_FILE cfg = Some m -> Py.strip m = m -> cached cfg w = m.
Proof. intros Hf Hs. unfold cached, read_file, gets. simpl. by rewrite Hf. Qed.

Lemma cached_files cfg w1 w2 :
  files w1 !! CACHE_FILE cfg = files w2 !! CACHE_FILE cfg -> cached cfg w1 = cached cfg w2.
Proof. intros Hf. unfold cached, read_file, gets. simpl. by rewrite Hf. Qed.



Lemma gt_zero_threshold t : (0 <= t)%Q -> Py.gt (Py.round2 0) (Py.round2 t) = false.
Proof. apply gt_round2_le. Qed.

(** ** Runs of [main] *)

Section Runs.

Variable py_float : string -> option Q.

Lemma run_of_inv cfg e w r :
  run_of py_float cfg e w = Some r ->
  let l := Py.round2 (read_5min_load py_float e) in
  let th := Py.round2 (LOAD_THRESHOLD cfg) in
  missing (ZONE_ID cfg) = false /\ missing (CF_API_TOKEN cfg) = false
  /\ get_code e = 200 /\ zone_level w <> EmptyString
  /\ actual_mode r = zone_level w /\ cached_mode r = cached cfg w
  /\ sync_cache cfg e l th (actual_mode r) (cached_mode r) (with_events [Get] w)
     = (last_mode r, synced r)
  /\ determine_target cfg e l th (last_mode r) (synced r) = (target_mode r, decided r).
Proof.
  unfold run_of. intros H.
  destruct (missing (ZONE_ID cfg)); [done|].
  destruct (missing (CF_API_TOKEN cfg)); [done|]. simpl in H.
  unfold cf_get_mode in H. rewrite run_bind in H. simpl in H.
  destruct (get_code e =? 200) eqn:Hc; simpl in H; [|done].
  apply Z.eqb_eq in Hc.
  case_decide; [done|].
  rewrite or_else_empty in H.
  destruct (sync_cache _ _ _ _ _ _ _) as [last w1] eqn:Hs.
  destruct (determine_target _ _ _ _ _ _) as [target w2] eqn:Hd.
  injection H as <-. simpl. done.
Qed.

Lemma run_of_some cfg e w :
  missing (ZONE_ID cfg) = false -> missing (CF_API_TOKEN cfg) = false ->
  get_code e = 200 -> zone_level w <> EmptyString ->
  exists r, run_of py_float cfg e w = Some r.
Proof.
  intros Hz Ht Hc Hl. unfold run_of. rewrite Hz, Ht. simpl.
  unfold cf_get_mode. rewrite run_bind. simpl. rewrite Hc. simpl.
  case_decide; [done|].
  destruct (sync_cache _ _ _ _ _ _ _) as [last w1].
  destruct (determine_target _ _ _ _ _ _) as [target w2]. eauto.
Qed.

Lemma run_of_none cfg e w :
  run_of py_float cfg e w = None ->
  (missing (ZONE_ID cfg) || missing (CF_API_TOKEN cfg) = true
   /\ main py_float cfg e w = (1, with_events [Print MissingCredentials] w))
  \/ (missing (ZONE_ID cfg) || missing (CF_API_TOKEN cfg) = false
      /\ (get_code e <> 200 \/ zone_level w = EmptyString)
      /\ main py_float cfg e w = (2, with_events [Get; Print GetFailed] w)).
Proof.
  unfold run_of, main.
  destruct (missing (ZONE_ID cfg) || missing (CF_API_TOKEN cfg)); [by left|].
  intros H. right. split; [done|].
  unfold cf_get_mode in *. rewrite run_bind in *. simpl in *.
  destruct (get_code e =? 200) eqn:Hc; simpl in *.
  - apply Z.eqb_eq in Hc.
    destruct (decide (zone_level w = EmptyString)) as [Hl|Hl].
    + split; [by right|]. rewrite run_bind. simpl.
      by rewrite with_events_app.
    + destruct (sync_cache _ _ _ _ _ _ _) as [last w1].
      destruct (determine_target _ _ _ _ _ _) as [target w2]. done.
  - apply Z.eqb_neq in Hc. split; [by left|]. rewrite run_bind. simpl.
    by rewrite with_events_app.
Qed.

(** A run that fetched the level of the zone ends with status 0, in the
    world [apply_mode] makes of the decided one. *)
Lemma main_run cfg e w r :
  run_of py_float cfg e w = Some r ->
  main py_float cfg e w =
    (0, (apply_mode cfg e (Py.round2 (read_5min_load py_float e))
           (Py.round2 (LOAD_THRESHOLD cfg)) (last_mode r) (target_mode r) (decided r)).2).
Proof.
  intros H. pose proof (run_of_inv _ _ _ _ H) as (Hz & Ht & Hc & Hl & Ha & Hcm & Hs & Hd).
  unfold main. rewrite Hz, Ht. simpl.
  unfold cf_get_mode. rewrite !run_bind. simpl. rewrite Hc. simpl.
  case_decide; [done|].
  rewrite !run_bind. simpl.
  rewrite or_else_empty.
  rewrite Ha, Hcm in Hs. unfold cached, read_file, gets in Hs. simpl in Hs.
  rewrite Hs. simpl. rewrite Hd. simpl. done.
Qed.

End Runs.

Section Synced.

Variable py_float : string -> option Q.

(** Once the cache is synced the cached mode is the level of the zone. *)
Lemma last_is_actual cfg e w r :
  run_of py_float cfg e w = Some r -> last_mode r = zone_level w.
Proof.
  intros Hr.
  pose proof (run_of_inv _ _ _ _ _ Hr) as (_ & _ & _ & _ & Ha & _ & Hs & _).
  simpl in Hs.
  destruct (sync_cache_cases cfg e (Py.round2 (read_5min_load py_float e))
              (Py.round2 (LOAD_THRESHOLD cfg)) (actual_mode r) (cached_mode r)
              (with_events [Get] w)) as [[Heq Hsame] | (Hne & Hl & _)].
  - rewrite Hsame in Hs. injection Hs as <- _. congruence.
  - rewrite Hs in Hl. simpl in Hl. congruence.
Qed.

Lemma synced_facts cfg e w r :
  run_of py_float cfg e w = Some r ->
  zone_level (synced r) = zone_level w
  /\ (exists evs, trace (synced r) = (trace w ++ Get :: evs)%list
        /\ forallb (fun ev => negb (changes_level ev)) evs = true)
  /\ (actual_mode r = cached_mode r -> synced r = with_events [Get] w)
  /\ (actual_mode r <> cached_mode r -> CACHE_FILE cfg <> TIMESTAMP_FILE cfg ->
      ALERT_TS_FILE cfg <> CACHE_FILE cfg ->
      files (synced r) !! CACHE_FILE cfg = Some (zone_level w))
  /\ (actual_mode r <> cached_mode r -> ALERT_TS_FILE cfg <> TIMESTAMP_FILE cfg ->
      (timestamp_present cfg (synced r) <-> zone_level w = UNDER_ATTACK))
  /\ (actual_mode r <> cached_mode r -> actual_mode r = UNDER_ATTACK ->
      timestamp_present cfg (synced r)).
Proof.
  intros Hr.
  pose proof (run_of_inv _ _ _ _ _ Hr) as (_ & _ & _ & _ & Ha & _ & Hs & _).
  simpl in Hs.
  destruct (sync_cache_cases cfg e (Py.round2 (read_5min_load py_float e))
              (Py.round2 (LOAD_THRESHOLD cfg)) (actual_mode r) (cached_mode r)
              (with_events [Get] w))
    as [[Heq Hsame] | (Hne & Hl & b & evs & Hf & Hz & Ht & Hd)].
  - rewrite Hsame in Hs. injection Hs as _ <-.
    split; [done|]. split; [by exists []|]. split; [done|].
    split; [|split]; intros Hne; congruence.
  - rewrite Hs in Hf, Hz, Ht. simpl in Hf, Hz, Ht.
    split; [done|]. rewrite <- Ha. split.
    { eexists. rewrite Ht, <- app_assoc. split; [done|]. simpl.
      rewrite (delivery_is_quiet _ Hd), andb_true_r.
      unfold manual_msg. by case_decide. }
    split; [done|]. split; [|split].
    + intros _ H1 H2. rewrite Hf. destruct b; case_decide; by simplify_map_eq.
    + intros _ H3. unfold timestamp_present. rewrite Hf.
      destruct b; case_decide; simplify_map_eq; split; try done;
        by intros [? ?].
    + intros _ Hua. unfold timestamp_present. rewrite Hf.
      destruct b; case_decide; try done.
      * destruct (decide (ALERT_TS_FILE cfg = TIMESTAMP_FILE cfg)) as [->|?];
          by simplify_map_eq.
      * by simplify_map_eq.
Qed.

Lemma decided_facts cfg e w r :
  run_of py_float cfg e w = Some r ->
  zone_level (decided r) = zone_level (synced r)
  /\ trace (decided r) = trace (synced r)
  /\ (files (decided r) = files (synced r)
      \/ files (decided r) = <[TIMESTAMP_FILE cfg := Py.str (now e)]> (files (synced r))
      \/ files (decided r) = delete (TIMESTAMP_FILE cfg) (files (synced r))).
Proof.
  intros Hr.
  pose proof (run_of_inv _ _ _ _ _ Hr) as (_ & _ & _ & _ & _ & _ & _ & Hd).
  simpl in Hd.
  pose proof (determine_target_world cfg e (Py.round2 (read_5min_load py_float e))
                (Py.round2 (LOAD_THRESHOLD cfg)) (last_mode r) (synced r)) as Hw.
  by rewrite Hd in Hw.
Qed.

End Synced.

Section Settled.

Variable py_float : string -> option Q.

(** The cache file still holds the level of the zone once the target is
    determined. *)
Lemma decided_cached cfg e w r :
  run_of py_float cfg e w = Some r ->
  CACHE_FILE cfg <> TIMESTAMP_FILE cfg -> ALERT_TS_FILE cfg <> CACHE_FILE cfg ->
  Py.strip (zone_level w) = zone_level w ->
  cached cfg (decided r) = zone_level w.
Proof.
  intros Hr H1 H2 Hstrip.
  pose proof (run_of_inv _ _ _ _ _ Hr) as (_ & _ & _ & _ & Ha & Hcm & _ & _).
  destruct (synced_facts _ _ _ _ _ Hr) as (_ & _ & Hsame & Hdrift & _).
  destruct (decided_facts _ _ _ _ _ Hr) as (_ & _ & Hf).
  assert (cached cfg (synced r) = zone_level w) as Hc.
  { destruct (decide (actual_mode r = cached_mode r)) as [Heq|Hne].
    - rewrite (Hsame Heq). change (cached cfg w = zone_level w). congruence.
    - apply cached_lookup; [by apply Hdrift|done]. }
  rewrite <- Hc. apply cached_files.
  destruct Hf as [-> | [-> | ->]]; by simplify_map_eq.
Qed.

(** The target is one of the two modes the program writes. *)
Lemma target_range cfg e w r :
  run_of py_float cfg e w = Some r ->
  target_mode r = UNDER_ATTACK \/ target_mode r = LOW_LOAD_MODE cfg.
Proof.
  intros Hr.
  pose proof (run_of_inv _ _ _ _ _ Hr) as (_ & _ & _ & _ & _ & _ & _ & Hd).
  simpl in Hd.
  destruct (determine_target_cases cfg e (Py.round2 (read_5min_load py_float e))
              (Py.round2 (LOAD_THRESHOLD cfg)) (last_mode r) (synced r))
    as [[_ Hc] | [(_ & _ & _ & _ & Hc) | [(_ & _ & _ & _ & Hc) | (_ & _ & Hc)]]];
    rewrite Hc in Hd; injection Hd as <- _; auto.
Qed.

(** The world a run ends in, when its write to the zone, if any, is
    accepted. *)
Lemma final_facts cfg e w r :
  run_of py_float cfg e w = Some r ->
  (target_mode r <> last_mode r -> patch_success e = true) ->
  let w' := (main py_float cfg e w).2 in
  zone_level w' = target_mode r
  /\ (target_mode r = last_mode r -> w' = decided r)
  /\ (target_mode r <> last_mode r ->
      exists stamped : bool,
        files w' =
          (let fs := <[CACHE_FILE cfg := target_mode r]> (files (decided r)) in
           if stamped then <[ALERT_TS_FILE cfg := Py.str (now e)]> fs else fs)).
Proof.
  intros Hr Hok w'. subst w'. rewrite (main_run _ _ _ _ _ Hr). simpl.
  destruct (decide (target_mode r = last_mode r)) as [Heq|Hne].
  - rewrite Heq, apply_mode_same. simpl.
    split; [|split; [done|by intros ?]].
    destruct (decided_facts _ cfg e _ _ Hr) as (-> & _).
    destruct (synced_facts _ cfg e _ _ Hr) as (-> & _).
    by rewrite <- (last_is_actual _ _ _ _ _ Hr).
  - rewrite (apply_mode_done _ _ _ _ _ _ _ Hne (Hok Hne)).
    match goal with |- context [fire ?c ?e ?m ?t ?l ?th ?w0] =>
      destruct (fire_effect c e m t l th w0) as (b & evs & Hf & Hz & _) end.
    rewrite Hz, Hf. simpl. split; [done|]. split; [done|]. intros _. by exists b.
Qed.

Lemma final_cached cfg e w r :
  run_of py_float cfg e w = Some r ->
  (target_mode r <> last_mode r -> patch_success e = true) ->
  CACHE_FILE cfg <> TIMESTAMP_FILE cfg -> ALERT_TS_FILE cfg <> CACHE_FILE cfg ->
  Py.strip (zone_level w) = zone_level w ->
  Py.strip (LOW_LOAD_MODE cfg) = LOW_LOAD_MODE cfg ->
  cached cfg (main py_float cfg e w).2 = target_mode r.
Proof.
  intros Hr Hok H1 H2 Hz Hl.
  destruct (final_facts _ _ _ _ Hr Hok) as (_ & Hsame & Hdiff).
  destruct (decide (target_mode r = last_mode r)) as [Heq|Hne].
  - rewrite (Hsame Heq), Heq, (last_is_actual _ _ _ _ _ Hr).
    by apply (decided_cached cfg e).
  - destruct (Hdiff Hne) as [b Hf]. apply cached_lookup.
    + rewrite Hf. simpl. destruct b; by simplify_map_eq.
    + destruct (target_range _ _ _ _ Hr) as [-> | ->]; [apply strip_under_attack|done].
Qed.

End Settled.

Section Lifecycle.

Variable py_float : string -> option Q.


End Lifecycle.

Lemma main_rounded py_float cfg e w t s :
  Py.round2 t = Py.round2 (LOAD_THRESHOLD cfg) ->
  Py.round2 (read_5min_load py_float (set_loadavg s e))
    = Py.round2 (read_5min_load py_float e) ->
  main py_float (set_threshold t cfg) (set_loadavg s e) w = main py_float cfg e w.
Proof.
  intros Ht Hl. unfold main. rewrite Hl. simpl. rewrite Ht. reflexivity.
Qed.

Lemma read_5min_load_failed py_float e :
  load_read_fails py_float e -> read_5min_load py_float e = 0%Q.
Proof.
  unfold load_read_fails, read_5min_load.
  destruct (proc_loadavg e) as [content|]; [|done].
  destruct (Py.split content !! 1%nat) as [field|]; [|done].
  by intros ->.
Qed.

(** ** The claims *)

(** The run of [main] in the goal, with its values computed in [Hv]. *)
Ltac the_run r Hr Hv :=
  match goal with
  | |- context [main ?pf ?cfg ?e ?w] =>
      destruct (run_of_some pf cfg e w eq_refl eq_refl eq_refl ltac:(done)) as [r Hr]
  | |- context [run_of ?pf ?cfg ?e ?w] =>
      destruct (run_of_some pf cfg e w eq_refl eq_refl eq_refl ltac:(done)) as [r Hr]
  end;
  pose proof Hr as Hv; vm_compute in Hv; injection Hv as Hv.

Ltac computed :=
  vm_compute;
  solve [ reflexivity | discriminate | eexists; reflexivity
        | let H := fresh in intros H; discriminate H
        | repeat split; discriminate ].

Ltac computed_run Hv := rewrite <- ?Hv; computed.

(** C1, as amended.  When the computed target differs from the cached mode
    and the PATCH is refused, the apply step writes no file and fires no
    alert, and the run returns 0: the final world is the decided one plus
    the two log lines and the PATCH.  The timestamp file is not protected:
    the target computation has already written it (load above the
    threshold, so the cached mode was not under_attack) or removed it
    (cooldown elapsed).  The cache file is as the sync step left it.  On a
    run where the fetched mode equals the cached one, the cache file and
    the alert timestamp file are as before (when they are other paths than
    the timestamp file), the zone is unchanged and no alert is fired.  On
    a run where the fetched mode differs from the cached one, the cache
    file holds the fetched mode after the run (when it is neither of the
    two timestamp files). *)
Theorem failed_write_effects (py_float : string -> option Q) cfg e w r :
  run_of py_float cfg e w = Some r ->
  target_mode r <> last_mode r ->
  patch_success e = false ->
  let l := Py.round2 (read_5min_load py_float e) in
  let th := Py.round2 (LOAD_THRESHOLD cfg) in
  main py_float cfg e w =
    (0, with_events [Print (Setting (target_mode r)); Patch (target_mode r);
                     Print (ApiFailed (patch_code e))] (decided r))
  /\ (Py.gt l th = true ->
      decided r = with_files (<[TIMESTAMP_FILE cfg := Py.str (now e)]> (files (synced r)))
                    (synced r))
  /\ (Py.gt l th = false -> last_mode r = UNDER_ATTACK -> timestamp_present cfg (synced r) ->
      decided r = with_files (delete (TIMESTAMP_FILE cfg) (files (synced r))) (synced r))
  /\ (Py.gt l th = false -> last_mode r <> UNDER_ATTACK \/ ~ timestamp_present cfg (synced r) ->
      decided r = synced r)
  /\ (actual_mode r = cached_mode r ->
      synced r = with_events [Get] w
      /\ (CACHE_FILE cfg <> TIMESTAMP_FILE cfg ->
          files (main py_float cfg e w).2 !! CACHE_FILE cfg = files w !! CACHE_FILE cfg)
      /\ (ALERT_TS_FILE cfg <> TIMESTAMP_FILE cfg ->
          files (main py_float cfg e w).2 !! ALERT_TS_FILE cfg = files w !! ALERT_TS_FILE cfg)
      /\ zone_level (main py_float cfg e w).2 = zone_level w
      /\ trace (main py_float cfg e w).2 =
           (trace w ++ [Get; Print (Setting (target_mode r)); Patch (target_mode r);
                        Print (ApiFailed (patch_code e))])%list)
  /\ (actual_mode r <> cached_mode r ->
      CACHE_FILE cfg <> TIMESTAMP_FILE cfg -> ALERT_TS_FILE cfg <> CACHE_FILE cfg ->
      files (main py_float cfg e w).2 !! CACHE_FILE cfg = Some (actual_mode r)).
Proof.
  intros Hr Hne Hfail l th.
  pose proof (run_of_inv _ _ _ _ _ Hr) as (_ & _ & _ & _ & Hact & _ & Hs & Hd).
  fold l th in Hs, Hd.
  assert (main py_float cfg e w =
    (0, with_events [Print (Setting (target_mode r)); Patch (target_mode r);
                     Print (ApiFailed (patch_code e))] (decided r))) as Hmain.
  { rewrite (main_run _ _ _ _ _ Hr). by rewrite (apply_mode_failed _ _ _ _ _ _ _ Hne Hfail). }
  assert (Py.gt l th = true ->
      decided r = with_files (<[TIMESTAMP_FILE cfg := Py.str (now e)]> (files (synced r)))
                    (synced r)) as Hhigh.
  { intros Hgt. rewrite (determine_target_high _ _ _ _ _ _ Hgt) in Hd.
    injection Hd as Ht Hw. case_decide; [congruence|done]. }
  assert (Py.gt l th = false -> last_mode r = UNDER_ATTACK -> timestamp_present cfg (synced r) ->
      decided r = with_files (delete (TIMESTAMP_FILE cfg) (files (synced r))) (synced r))
    as Hexp.
  { intros Hgt Hlast Hp. rewrite Hlast in Hd.
    destruct (Z_lt_le_dec (now e - (activated_at cfg (synced r)).1) (cooldown_seconds cfg))
      as [Hlt|Hge].
    - rewrite (determine_target_hold _ _ _ _ _ Hgt Hp Hlt) in Hd.
      injection Hd as Ht Hw. congruence.
    - rewrite (determine_target_expire _ _ _ _ _ Hgt Hp Hge) in Hd.
      by injection Hd. }
  assert (Py.gt l th = false -> last_mode r <> UNDER_ATTACK \/ ~ timestamp_present cfg (synced r) ->
      decided r = synced r) as Hlow.
  { intros Hgt Hor. rewrite (determine_target_low _ _ _ _ _ _ Hgt Hor) in Hd.
    by injection Hd. }
  split; [done|]. split; [done|]. split; [done|]. split; [done|].
  split; [|intros Hdrift Hct Hac; rewrite Hmain; simpl;
           destruct (synced_facts py_float cfg e w r Hr) as (_ & _ & _ & Hcache & _);
           specialize (Hcache Hdrift Hct Hac); rewrite Hact;
           destruct (decided_facts py_float cfg e w r Hr) as (_ & _ & [-> | [-> | ->]]);
           by simplify_map_eq].
  intros Heq. rewrite (sync_cache_same _ _ _ _ _ _ _ Heq) in Hs.
  injection Hs as _ Hsy.
  assert (files (decided r) = <[TIMESTAMP_FILE cfg := Py.str (now e)]> (files w)
          \/ files (decided r) = delete (TIMESTAMP_FILE cfg) (files w)
          \/ files (decided r) = files w) as Hfiles.
  { destruct (Py.gt l th) eqn:Hgt.
    - left. rewrite Hhigh by done. by rewrite <- Hsy.
    - destruct (decide (last_mode r = UNDER_ATTACK)) as [Hl|Hl].
      + destruct (decide (timestamp_present cfg (synced r))) as [Hp|Hp].
        * right; left. rewrite Hexp by done. by rewrite <- Hsy.
        * right; right. rewrite Hlow by auto. by rewrite <- Hsy.
      + right; right. rewrite Hlow by auto. by rewrite <- Hsy. }
  assert (trace (decided r) = (trace w ++ [Get])%list
          /\ zone_level (decided r) = zone_level w) as [Htr Hzl].
  { destruct (Py.gt l th) eqn:Hgt.
    - rewrite Hhigh by done. by rewrite <- Hsy.
    - destruct (decide (last_mode r = UNDER_ATTACK)) as [Hl|Hl].
      + destruct (decide (timestamp_present cfg (synced r))) as [Hp|Hp].
        * rewrite Hexp by done. by rewrite <- Hsy.
        * rewrite Hlow by auto. by rewrite <- Hsy.
      + rewrite Hlow by auto. by rewrite <- Hsy. }
  rewrite Hmain. simpl.
  split; [done|]. split; [|split; [|split]].
  - intros Hc. destruct Hfiles as [-> | [-> | ->]]; by simplify_map_eq.
  - intros Hc. destruct Hfiles as [-> | [-> | ->]]; by simplify_map_eq.
  - done.
  - rewrite Htr. by rewrite <- app_assoc.
Qed.

(** C1 as stated fails: the load is above the threshold, the cached mode
    is medium, the PATCH is refused, the run returns 0, and the timestamp
    file, absent before the run, holds the time of the run after it. *)
Lemma failed_write_leaves_timestamp :
  let e := sample_env "9.30" 1700000000 false in
  let w := sample_world "medium" None "medium" in
  exists r, run_of decimal_float sample_cfg e w = Some r
    /\ target_mode r = UNDER_ATTACK /\ last_mode r = "medium"
    /\ patch_success e = false
    /\ (main decimal_float sample_cfg e w).1 = 0
    /\ files w !! TIMESTAMP_FILE sample_cfg = None
    /\ files (main decimal_float sample_cfg e w).2 !! TIMESTAMP_FILE sample_cfg
       = Some "1700000000".
Proof. eexists. split; [by vm_compute|]. repeat split; by vm_compute. Qed.

(** [failed_write_effects] on scenario A with the PATCH refused. *)
Lemma failed_write_effects_witness :
  (main decimal_float sample_cfg (sample_env "9.30" 1700000000 false)
     (sample_world "medium" None "medium")).1 = 0.
Proof.
  the_run r Hr Hv.
  assert (target_mode r <> last_mode r) as H1 by computed_run Hv.
  destruct (failed_write_effects decimal_float _ _ _ _ Hr H1 eq_refl) as (-> & _).
  reflexivity.
Defined.




(** C3.  On a run where the fetched mode differs from the cached one,
    before the target is determined the cache file is written with the
    fetched mode, the timestamp file is set to [now] when that mode is
    under_attack and removed otherwise, and the alert for a manual change
    is fired, whichever the direction; [determine_target] then runs on the
    synced world.  The three lookups hold when the state files are three
    paths. *)
Theorem drift_sync (py_float : string -> option Q) cfg e w r :
  run_of py_float cfg e w = Some r ->
  actual_mode r <> cached_mode r ->
  let l := Py.round2 (read_5min_load py_float e) in
  let th := Py.round2 (LOAD_THRESHOLD cfg) in
  let actual := actual_mode r in
  let stored :=
    with_files
      (if decide (actual = UNDER_ATTACK)
       then <[TIMESTAMP_FILE cfg := Py.str (now e)]> (<[CACHE_FILE cfg := actual]> (files w))
       else delete (TIMESTAMP_FILE cfg) (<[CACHE_FILE cfg := actual]> (files w)))
      (with_events [Get; Print (Syncing (cached_mode r) actual)] w) in
  last_mode r = actual
  /\ synced r = (fire cfg e (manual_msg e actual) actual l th stored).2
  /\ Alert (manual_msg e actual) ∈ trace (synced r)
  /\ determine_target cfg e l th actual (synced r) = (target_mode r, decided r)
  /\ (distinct_files cfg ->
      files (synced r) !! CACHE_FILE cfg = Some actual
      /\ (actual = UNDER_ATTACK ->
          files (synced r) !! TIMESTAMP_FILE cfg = Some (Py.str (now e)))
      /\ (actual <> UNDER_ATTACK -> files (synced r) !! TIMESTAMP_FILE cfg = None)).
Proof.
  intros Hr Hne l th actual stored.
  pose proof (run_of_inv _ _ _ _ _ Hr) as (_ & _ & _ & _ & _ & _ & Hs & Hd).
  fold l th actual in Hs, Hd.
  rewrite (sync_cache_drift _ _ _ _ _ _ _ Hne) in Hs.
  rewrite with_events_app in Hs. simpl in Hs.
  injection Hs as Hlast Hsync. fold actual in Hsync.
  assert (synced r = (fire cfg e (manual_msg e actual) actual l th stored).2) as Hsy.
  { rewrite <- Hsync. done. }
  destruct (fire_effect cfg e (manual_msg e actual) actual l th stored)
    as (b & evs & Hf & Hz & Ht & Hdel).
  rewrite <- Hsy in Hf, Hz, Ht.
  split; [done|]. split; [done|].
  split; [rewrite Ht; apply elem_of_app; right; apply elem_of_cons; by left|].
  split; [by rewrite <- Hlast in Hd|].
  intros (H1 & H2 & H3). rewrite Hf. subst stored. simpl.
  repeat split; [| intros Hua | intros Hua]; destruct b; case_decide;
    by simplify_map_eq.
Qed.

(** [drift_sync] on scenario D. *)
Lemma drift_sync_witness :
  exists r,
    run_of decimal_float sample_cfg (sample_env "1.00" 1700011000 true)
      (sample_world "under_attack" (Some "1700000000") "essentially_off") = Some r
    /\ last_mode r = "essentially_off"
    /\ files (synced r) !! CACHE_FILE sample_cfg = Some "essentially_off"
    /\ files (synced r) !! TIMESTAMP_FILE sample_cfg = None.
Proof.
  the_run r Hr Hv. exists r. split; [exact Hr|].
  assert (actual_mode r <> cached_mode r) as H1 by computed_run Hv.
  assert (actual_mode r = "essentially_off") as Ha by computed_run Hv.
  destruct (drift_sync decimal_float _ _ _ _ Hr H1) as (Hl & _ & _ & _ & Hfiles).
  destruct Hfiles as (Hc & _ & Ht); [repeat split; computed|].
  rewrite Ha in Hl, Hc, Ht.
  split; [exact Hl|]. split; [exact Hc|]. apply Ht. computed.
Defined.







(** C6.  When the level of the zone cannot be fetched ([cf_get_mode]
    returns the empty string: a status other than 200, or no level in the
    answer), the run returns 2 after the GET and one log line; no target is
    computed and no file or zone level changes. *)
Theorem unreadable_mode_aborts (py_float : string -> option Q) cfg e w :
  missing (ZONE_ID cfg) = false -> missing (CF_API_TOKEN cfg) = false ->
  (cf_get_mode e w).1 = EmptyString ->
  main py_float cfg e w = (2, with_events [Get; Print GetFailed] w)
  /\ files (main py_float cfg e w).2 = files w
  /\ zone_level (main py_float cfg e w).2 = zone_level w
  /\ run_of py_float cfg e w = None.
Proof.
  intros Hz Ht Hg.
  assert (run_of py_float cfg e w = None) as Hn.
  { destruct (run_of py_float cfg e w) as [r|] eqn:Hr; [|done].
    apply run_of_inv in Hr as (_ & _ & Hc & Hl & _).
    revert Hg. unfold cf_get_mode. rewrite run_bind. simpl.
    rewrite Hc. simpl. done. }
  destruct (run_of_none _ _ _ _ Hn) as [[Hm _]|(_ & _ & ->)].
  - rewrite Hz, Ht in Hm. done.
  - done.
Qed.

(** [unreadable_mode_aborts] when the API answers 503. *)
Lemma unreadable_mode_aborts_witness :
  main decimal_float sample_cfg sample_outage (sample_world "medium" None "medium")
  = (2, with_events [Get; Print GetFailed] (sample_world "medium" None "medium")).
Proof.
  exact (proj1 (unreadable_mode_aborts decimal_float sample_cfg sample_outage
                  (sample_world "medium" None "medium") eq_refl eq_refl eq_refl)).
Defined.

(** C7, as amended.  On a run whose target equals the cached mode
    ([last_mode]) no PATCH is sent and no transition alert is fired.  After
    a run whose PATCH, if any, was accepted, a second run on the same
    readings (same load, clock and API behaviour, the zone and the files as
    the first run left them) computes the same target and only sends the
    GET: no PATCH, no alert.  The second part needs three distinct state
    files, mode names without surrounding blanks and a non-empty normal
    mode. *)
Theorem settled_runs_are_quiet (py_float : string -> option Q) cfg e w r :
  run_of py_float cfg e w = Some r ->
  let w' := (main py_float cfg e w).2 in
  (target_mode r = last_mode r ->
     main py_float cfg e w = (0, decided r)
     /\ zone_level w' = zone_level w
     /\ exists evs, trace w' = (trace w ++ Get :: evs)%list
          /\ forallb (fun ev => negb (changes_level ev)) evs = true)
  /\ (distinct_files cfg ->
      Py.strip (zone_level w) = zone_level w ->
      Py.strip (LOW_LOAD_MODE cfg) = LOW_LOAD_MODE cfg ->
      LOW_LOAD_MODE cfg <> EmptyString ->
      (target_mode r <> last_mode r -> patch_success e = true) ->
      exists r', run_of py_float cfg e w' = Some r'
        /\ target_mode r' = target_mode r
        /\ last_mode r' = target_mode r
        /\ main py_float cfg e w' = (0, decided r')
        /\ zone_level (decided r') = zone_level w'
        /\ trace (decided r') = (trace w' ++ [Get])%list).
Proof.
  intros Hr w'.
  pose proof (run_of_inv _ _ _ _ _ Hr) as (Hzid & Htok & Hcode & Hzne & Ha & Hcm & Hs & Hd).
  simpl in Hs, Hd.
  set (l := Py.round2 (read_5min_load py_float e)) in *.
  set (th := Py.round2 (LOAD_THRESHOLD cfg)) in *.
  destruct (synced_facts _ cfg e _ _ Hr) as (Hsz & (evs & Hst & Hq) & Hsame & _).
  destruct (decided_facts _ cfg e _ _ Hr) as (Hdz & Hdt & Hdf).
  split.
  - intros Heq.
    assert (main py_float cfg e w = (0, decided r)) as Hm.
    { rewrite (main_run _ _ _ _ _ Hr). fold l th. by rewrite Heq, apply_mode_same. }
    split; [done|]. subst w'. rewrite Hm. simpl.
    split; [congruence|]. exists evs. by rewrite Hdt.
  - intros (H1 & H2 & H3) Hstrip Hlow Hlne Hok.
    destruct (final_facts _ _ _ _ _ Hr Hok) as (Hfz & Hfsame & _).
    pose proof (final_cached _ _ _ _ _ Hr Hok H1 H2 Hstrip Hlow) as Hfc.
    fold w' in Hfz, Hfsame, Hfc.
    assert (zone_level w' <> EmptyString) as Hne'.
    { rewrite Hfz. destruct (target_range _ _ _ _ _ Hr) as [-> | ->]; done. }
    destruct (run_of_some py_float cfg e w' Hzid Htok Hcode Hne') as [r' Hr'].
    exists r'. split; [done|].
    pose proof (run_of_inv _ _ _ _ _ Hr') as (_ & _ & _ & _ & Ha' & Hcm' & Hs' & Hd').
    simpl in Hs', Hd'. fold l th in Hs', Hd'.
    assert (actual_mode r' = cached_mode r') as Heq' by congruence.
    rewrite (sync_cache_same _ _ _ _ _ _ _ Heq') in Hs'.
    injection Hs' as Hl' Hsy'.
    assert (last_mode r' = target_mode r) as Hlast' by congruence.
    assert (target_mode r' = target_mode r) as Htarget.
    { rewrite <- Hsy', Hlast' in Hd'.
      destruct (determine_target_cases cfg e l th (last_mode r) (synced r))
        as [[Hgt Hc] | [(Hgt & Hl & Hp & Hlt & Hc) | [(Hgt & _ & _ & _ & Hc) | (Hgt & _ & Hc)]]];
        rewrite Hc in Hd; injection Hd as Ht Hw;
        destruct (determine_target_cases cfg e l th (target_mode r) (with_events [Get] w'))
          as [[Hgt' Hc'] | [(Hgt' & Hl2 & Hp' & Hlt' & Hc') | [(Hgt' & _ & _ & Hge' & Hc') | (Hgt' & Hor' & Hc')]]];
        rewrite Hc' in Hd'; injection Hd' as Ht' Hw'; try congruence.
      - (* held in the first run, expired in the second *)
        exfalso. rewrite (Hfsame (eq_trans (eq_sym Ht) (eq_sym Hl))), <- Hw in Hge'.
        change (cooldown_seconds cfg <= now e - (activated_at cfg (synced r)).1) in Hge'.
        lia.
      - (* held in the first run, nothing to hold in the second *)
        exfalso. rewrite (Hfsame (eq_trans (eq_sym Ht) (eq_sym Hl))), <- Hw in Hor'.
        destruct Hor' as [Hn|Hn]; [congruence|]. by apply Hn. }
    split; [done|]. split; [done|].
    split.
    { rewrite (main_run _ _ _ _ _ Hr'). fold l th.
      by rewrite Htarget, Hlast', apply_mode_same. }
    destruct (decided_facts _ cfg e _ _ Hr') as (Hdz' & Hdt' & _).
    rewrite Hdz', Hdt', <- Hsy'. done.
Qed.

(** C7 as stated fails: when the PATCH is refused the run changes no file
    and no zone level, and the next run on identical inputs sends the PATCH
    again. *)
Lemma failed_write_is_retried :
  let e := sample_env "1.00" 1700000000 false in
  let w := sample_world "under_attack" None "under_attack" in
  let w' := (main decimal_float sample_cfg e w).2 in
  files w' = files w /\ zone_level w' = zone_level w
  /\ trace (main decimal_float sample_cfg e w').2 =
       (trace w' ++ [Get; Print (Setting "medium"); Patch "medium"; Print (ApiFailed 500)])%list
  /\ Patch "medium" ∈ trace w'.
Proof.
  split; [by vm_compute|]. split; [by vm_compute|]. split; [by vm_compute|].
  vm_compute. apply elem_of_cons. right. apply elem_of_cons. right.
  apply elem_of_cons. by left.
Qed.

(** [settled_runs_are_quiet] on scenario A run twice. *)
Lemma settled_runs_are_quiet_witness :
  exists r',
    run_of decimal_float sample_cfg (sample_env "9.30" 1700000000 true)
      (main decimal_float sample_cfg (sample_env "9.30" 1700000000 true)
         (sample_world "medium" None "medium")).2 = Some r'
    /\ target_mode r' = UNDER_ATTACK.
Proof.
  the_run r Hr Hv.
  destruct (settled_runs_are_quiet decimal_float _ _ _ _ Hr) as (_ & Hsecond).
  destruct Hsecond as (r' & Hr' & Ht & _).
  - repeat split; computed.
  - computed.
  - computed.
  - computed.
  - reflexivity.
  - exists r'. split; [exact Hr'|]. rewrite Ht. computed_run Hv.
Defined.

(** C8, as amended.  For a dispatch with a channel other than none and a
    non-empty alert timestamp path: when [now - last_alert] is below
    [int(cooldown_min * 60)], the cooldown truncated to whole seconds, the
    call changes nothing; otherwise the channel is run (one delivery
    attempt when it is configured to deliver), [now] is written to the
    alert timestamp file whatever the channel did, and every later
    dispatch less than that many seconds after it changes nothing. *)
Theorem alert_rate_limit cfg e m h t l th w :
  ALERT_MODE cfg <> "none" -> ALERT_TS_FILE cfg <> EmptyString ->
  let last := (last_alert (ALERT_TS_FILE cfg) w).1 in
  let window := Py.trunc (ALERT_COOLDOWN_MIN cfg * 60) in
  let w' := (send_alert cfg e m h t l th w).2 in
  (now e - last < window -> w' = w)
  /\ (window <= now e - last ->
      files w' = <[ALERT_TS_FILE cfg := Py.str (now e)]> (files w)
      /\ zone_level w' = zone_level w
      /\ (exists evs, trace w' = (trace w ++ evs)%list
            /\ forallb is_delivery evs = true
            /\ deliveries evs = (if channel_ready cfg e then 1 else 0)%nat)
      /\ (last_alert (ALERT_TS_FILE cfg) w').1 = now e
      /\ (forall e2 m2 h2 t2 l2 th2 w2,
            files w2 !! ALERT_TS_FILE cfg = files w' !! ALERT_TS_FILE cfg ->
            now e2 - now e < window ->
            send_alert cfg e2 m2 h2 t2 l2 th2 w2 = (tt, w2))).
Proof.
  intros Hm Hf last window w'.
  pose proof (can_alert_value e _ (ALERT_COOLDOWN_MIN cfg) w Hf) as Hc.
  fold last window in Hc.
  split.
  - intros Hlt. subst w'. rewrite send_alert_suppressed; [done..|].
    rewrite Hc. apply Z.leb_gt. lia.
  - intros Hge.
    assert (w' = (record_alert_ts e (ALERT_TS_FILE cfg) (deliver cfg e m h t l th w).2).2)
      as Hw'.
    { subst w'. rewrite send_alert_sent; [done..|]. rewrite Hc. by apply Z.leb_le. }
    destruct (deliver_effect cfg e m h t l th w) as (evs & Hd & Hdel & Hn).
    rewrite Hd in Hw'. unfold record_alert_ts in Hw'.
    destruct (decide (ALERT_TS_FILE cfg = EmptyString)) as [|_]; [done|].
    unfold write_file, set_files, modify in Hw'. rewrite !run_bind in Hw'.
    simpl in Hw'.
    assert (files w' = <[ALERT_TS_FILE cfg := Py.str (now e)]> (files w)) as Hfiles
      by (by rewrite Hw').
    split; [done|]. split; [by rewrite Hw'|].
    split; [exists evs; by rewrite Hw'|].
    assert ((last_alert (ALERT_TS_FILE cfg) w').1 = now e) as Hlast.
    { apply last_alert_written. rewrite Hfiles. by simplify_map_eq. }
    split; [done|].
    intros e2 m2 h2 t2 l2 th2 w2 Hsame Hsoon.
    apply send_alert_suppressed; [done|].
    rewrite can_alert_value by done.
    rewrite (last_alert_files _ w2 w' Hsame), Hlast.
    apply Z.leb_gt. fold window. lia.
Qed.

(** C8 as stated fails, in two ways.  With a cooldown of 0.33 minutes, 19
    seconds after the last alert is less than 0.33 * 60 = 19.8, yet the
    alert is delivered and the timestamp rewritten, the window being 19
    whole seconds.  And with an empty alert timestamp path nothing is
    recorded: two dispatches one second apart, within the 30 minutes of
    the cooldown, are both delivered. *)
Lemma alert_suppression_not_as_stated :
  (let cfg := set_alert_cooldown (33 # 100) sample_cfg in
   let e := sample_env "1.00" 1700000019 true in
   let w := with_files (<[ALERT_TS_FILE cfg := "1700000000"]> ∅)
              (sample_world "medium" None "medium") in
   let m := Entered "web1" 1 7 1700000019 in
   let last := (last_alert (ALERT_TS_FILE cfg) w).1 in
   ALERT_MODE cfg <> "none"
   /\ (inject_Z (now e - last) < ALERT_COOLDOWN_MIN cfg * 60)%Q
   /\ deliveries (trace (send_alert cfg e m "web1" "under_attack" 1 7 w).2) = 1%nat
   /\ files (send_alert cfg e m "web1" "under_attack" 1 7 w).2 !! ALERT_TS_FILE cfg
      = Some "1700000019")
  /\ (let cfg := set_alert_ts_file "" sample_cfg in
      let e1 := sample_env "9.30" 1700000000 true in
      let e2 := sample_env "9.30" 1700000001 true in
      let w := sample_world "medium" None "medium" in
      let w1 := (send_alert cfg e1 (Entered "web1" 9 7 1700000000)
                   "web1" "under_attack" 9 7 w).2 in
      let w2 := (send_alert cfg e2 (Entered "web1" 9 7 1700000001)
                   "web1" "under_attack" 9 7 w1).2 in
      ALERT_MODE cfg <> "none"
      /\ (inject_Z (now e2 - now e1) < ALERT_COOLDOWN_MIN cfg * 60)%Q
      /\ deliveries (trace w1) = 1%nat
      /\ deliveries (trace w2) = 2%nat
      /\ files w2 = files w).
Proof. repeat split; by vm_compute. Qed.

(** [alert_rate_limit] 100 seconds after the last alert, with a cooldown
    of 30 minutes. *)
Lemma alert_rate_limit_witness :
  (send_alert sample_cfg (sample_env "9.30" 1700000100 true)
     (Entered "web1" (930 # 100) 7 1700000100) "web1" "under_attack" (930 # 100) 7
     (with_files (<[ALERT_TS_FILE sample_cfg := "1700000000"]> ∅)
        (sample_world "medium" None "medium"))).2
  = with_files (<[ALERT_TS_FILE sample_cfg := "1700000000"]> ∅)
      (sample_world "medium" None "medium").
Proof.
  apply (alert_rate_limit sample_cfg (sample_env "9.30" 1700000100 true)
           (Entered "web1" (930 # 100) 7 1700000100) "web1" "under_attack" (930 # 100) 7
           (with_files (<[ALERT_TS_FILE sample_cfg := "1700000000"]> ∅)
              (sample_world "medium" None "medium"))); computed.
Defined.

(** C9.  The run depends on the load and on the threshold only through
    their values rounded to two decimals: the target is under_attack when
    the rounded load exceeds the rounded threshold, and the normal mode
    when it does not and the cached mode is not under_attack.  A load of
    7.004 against a threshold of 7.0 exceeds it and does not trigger
    under_attack. *)
Theorem comparison_on_rounded_values :
  (forall py_float cfg e w t s,
      Py.round2 t = Py.round2 (LOAD_THRESHOLD cfg) ->
      Py.round2 (read_5min_load py_float (set_loadavg s e))
        = Py.round2 (read_5min_load py_float e) ->
      main py_float (set_threshold t cfg) (set_loadavg s e) w = main py_float cfg e w)
  /\ (forall py_float cfg e w r,
        run_of py_float cfg e w = Some r ->
        let l := Py.round2 (read_5min_load py_float e) in
        let th := Py.round2 (LOAD_THRESHOLD cfg) in
        ((th < l)%Q -> target_mode r = UNDER_ATTACK)
        /\ (~ (th < l)%Q -> last_mode r <> UNDER_ATTACK ->
            target_mode r = LOW_LOAD_MODE cfg))
  /\ (let e := sample_env "7.004" 1700000000 true in
      let w := sample_world "medium" None "medium" in
      (LOAD_THRESHOLD sample_cfg < read_5min_load decimal_float e)%Q
      /\ exists r, run_of decimal_float sample_cfg e w = Some r
           /\ target_mode r = "medium"
           /\ main decimal_float sample_cfg e w = (0, with_events [Get] w)).
Proof.
  split; [exact main_rounded|]. split.
  - intros py_float cfg e w r Hr l th.
    pose proof (run_of_inv _ _ _ _ _ Hr) as (_ & _ & _ & _ & _ & _ & _ & Hd).
    fold l th in Hd. split.
    + intros Hlt. apply gt_spec in Hlt.
      rewrite (determine_target_high _ _ _ _ _ _ Hlt) in Hd. by injection Hd.
    + intros Hn Hlast.
      assert (Py.gt l th = false) as Hgt.
      { destruct (Py.gt l th) eqn:E; [|done]. by apply gt_spec in E. }
      rewrite (determine_target_low _ _ _ _ _ _ Hgt (or_introl Hlast)) in Hd.
      by injection Hd.
  - split; [by vm_compute|].
    eexists. split; [by vm_compute|]. split; by vm_compute.
Qed.

(** [comparison_on_rounded_values] on a load and a threshold moved within
    their hundredth. *)
Lemma comparison_on_rounded_values_witness :
  main decimal_float (set_threshold (6996 # 1000) sample_cfg)
    (set_loadavg (Some "0.10 7.004 0.30 1/100 4242") (sample_env "7.00" 1700000000 true))
    (sample_world "medium" None "medium")
  = main decimal_float sample_cfg (sample_env "7.00" 1700000000 true)
      (sample_world "medium" None "medium").
Proof.
  apply (proj1 comparison_on_rounded_values); computed.
Defined.

(** C10.  [read_5min_load] is a total function and returns 0 when the
    file cannot be opened, has fewer than two fields or its second field
    is not a float.  Then, for a threshold that is not negative, the
    target is the normal mode and no timestamp is written when the cached
    mode is not under_attack; and when it is, with the timestamp present,
    the run holds under_attack during the cooldown and leaves it once the
    cooldown has elapsed, as for a low load. *)
Theorem failed_load_read_counts_as_idle py_float :
  (forall e, load_read_fails py_float e -> read_5min_load py_float e = 0%Q)
  /\ (forall cfg e w r,
        load_read_fails py_float e -> (0 <= LOAD_THRESHOLD cfg)%Q ->
        run_of py_float cfg e w = Some r ->
        let elapsed := now e - (activated_at cfg (synced r)).1 in
        (last_mode r <> UNDER_ATTACK ->
           target_mode r = LOW_LOAD_MODE cfg /\ decided r = synced r)
        /\ (last_mode r = UNDER_ATTACK -> timestamp_present cfg (synced r) ->
            (elapsed < cooldown_seconds cfg ->
               target_mode r = UNDER_ATTACK /\ decided r = synced r)
            /\ (cooldown_seconds cfg <= elapsed ->
               target_mode r = LOW_LOAD_MODE cfg
               /\ decided r =
                    with_files (delete (TIMESTAMP_FILE cfg) (files (synced r))) (synced r)))).
Proof.
  split; [apply read_5min_load_failed|].
  intros cfg e w r Hfail Hth Hr elapsed.
  pose proof (run_of_inv _ _ _ _ _ Hr) as (_ & _ & _ & _ & _ & _ & _ & Hd).
  simpl in Hd. rewrite (read_5min_load_failed _ _ Hfail) in Hd.
  pose proof (gt_zero_threshold _ Hth) as Hgt.
  split.
  - intros Hlast.
    rewrite (determine_target_low _ _ _ _ _ _ Hgt (or_introl Hlast)) in Hd.
    by injection Hd.
  - intros Hlast Hp. rewrite Hlast in Hd. split.
    + intros Hlt. rewrite (determine_target_hold _ _ _ _ _ Hgt Hp Hlt) in Hd.
      by injection Hd.
    + intros Hge. rewrite (determine_target_expire _ _ _ _ _ Hgt Hp Hge) in Hd.
      by injection Hd.
Qed.

(** [failed_load_read_counts_as_idle] on a file that is not a load
    average and on a file that cannot be read. *)
Lemma failed_load_read_counts_as_idle_witness :
  read_5min_load decimal_float (set_loadavg (Some "garbage") sample_outage) = 0%Q
  /\ read_5min_load decimal_float (set_loadavg None sample_outage) = 0%Q.
Proof.
  split; apply (proj1 (failed_load_read_counts_as_idle decimal_float)); computed.
Defined.

(** ** The state engine beyond the claims *)

(** The three ways [apply_mode] can go. *)
Lemma apply_mode_cases cfg e l th last target w :
  (target = last /\ apply_mode cfg e l th last target w = (tt, w))
  \/ (target <> last /\ patch_success e = false
      /\ apply_mode cfg e l th last target w =
           (tt, with_events [Print (Setting target); Patch target;
                             Print (ApiFailed (patch_code e))] w))
  \/ (target <> last /\ patch_success e = true
      /\ exists (stamped : bool) evs,
           files (apply_mode cfg e l th last target w).2 =
             (let fs := <[CACHE_FILE cfg := target]> (files w) in
              if stamped then <[ALERT_TS_FILE cfg := Py.str (now e)]> fs else fs)
           /\ zone_level (apply_mode cfg e l th last target w).2 = target
           /\ trace (apply_mode cfg e l th last target w).2 =
                (trace w ++ Print (Setting target) :: Patch target
                   :: Alert (transition_msg e target l th) :: evs)%list
           /\ forallb is_delivery evs = true).
Proof.
  destruct (decide (target = last)) as [->|Hne].
  - left. split; [done|]. apply apply_mode_same.
  - right. destruct (patch_success e) eqn:Hs.
    + right. split; [done|]. split; [done|].
      rewrite (apply_mode_done _ _ _ _ _ _ _ Hne Hs).
      match goal with |- context [fire ?c ?e ?m ?t ?l ?th ?w0] =>
        destruct (fire_effect c e m t l th w0) as (b & evs & Hf & Hz & Ht & Hd) end.
      exists b, evs. rewrite Hf, Hz, Ht. simpl.
      repeat split; try done. by rewrite <- app_assoc.
    + left. split; [done|]. split; [done|]. by apply apply_mode_failed.
Qed.

Lemma filter_delivery_patch evs :
  forallb is_delivery evs = true -> filter is_patch evs = [].
Proof.
  induction evs as [|ev evs IH]; [done|]. simpl.
  intros [Hev Hevs]%andb_true_iff.
  rewrite filter_cons, (IH Hevs). by destruct ev.
Qed.

Lemma filter_quiet_patch evs :
  forallb (fun ev => negb (changes_level ev)) evs = true -> filter is_patch evs = [].
Proof.
  induction evs as [|ev evs IH]; [done|]. simpl.
  intros [Hev Hevs]%andb_true_iff.
  rewrite filter_cons, (IH Hevs). case_decide as Hp; [|done].
  exfalso. unfold changes_level in Hev. by destruct (is_patch ev).
Qed.

Section Frame.

Variable py_float : string -> option Q.

Lemma synced_frame cfg e w r p :
  run_of py_float cfg e w = Some r ->
  p <> CACHE_FILE cfg -> p <> TIMESTAMP_FILE cfg -> p <> ALERT_TS_FILE cfg ->
  files (synced r) !! p = files w !! p.
Proof.
  intros Hr H1 H2 H3.
  pose proof (run_of_inv _ _ _ _ _ Hr) as (_ & _ & _ & _ & _ & _ & Hs & _).
  simpl in Hs.
  destruct (sync_cache_cases cfg e (Py.round2 (read_5min_load py_float e))
              (Py.round2 (LOAD_THRESHOLD cfg)) (actual_mode r) (cached_mode r)
              (with_events [Get] w))
    as [[_ Hsame] | (_ & _ & b & evs & Hf & _)].
  - rewrite Hsame in Hs. by injection Hs as _ <-.
  - rewrite Hs in Hf. simpl in Hf. rewrite Hf.
    destruct b; case_decide; by simplify_map_eq.
Qed.

Lemma decided_frame cfg e w r p :
  run_of py_float cfg e w = Some r ->
  p <> TIMESTAMP_FILE cfg ->
  files (decided r) !! p = files (synced r) !! p.
Proof.
  intros Hr H2.
  destruct (decided_facts _ cfg e _ _ Hr) as (_ & _ & [-> | [-> | ->]]);
    by simplify_map_eq.
Qed.

Lemma apply_frame cfg e l th last target w p :
  p <> CACHE_FILE cfg -> p <> ALERT_TS_FILE cfg ->
  files (apply_mode cfg e l th last target w).2 !! p = files w !! p.
Proof.
  intros H1 H3.
  destruct (apply_mode_cases cfg e l th last target w)
    as [[_ ->] | [(_ & _ & ->) | (_ & _ & b & evs & -> & _)]]; try done.
  simpl. destruct b; by simplify_map_eq.
Qed.

End Frame.

(** X2.  A run touches no file but its three state files: the content of
    any path other than the cache file, the timestamp file and the alert
    timestamp file is after [main] what it was before. *)
Theorem main_frame (py_float : string -> option Q) cfg e w p :
  p <> CACHE_FILE cfg -> p <> TIMESTAMP_FILE cfg -> p <> ALERT_TS_FILE cfg ->
  files (main py_float cfg e w).2 !! p = files w !! p.
Proof.
  intros H1 H2 H3.
  destruct (run_of py_float cfg e w) as [r|] eqn:Hr.
  - rewrite (main_run _ _ _ _ _ Hr). simpl.
    rewrite (apply_frame cfg e _ _ _ _ _ p H1 H3).
    rewrite (decided_frame py_float cfg e w r p Hr H2).
    by apply (synced_frame py_float cfg e).
  - by destruct (run_of_none _ _ _ _ Hr) as [[_ ->] | (_ & _ & ->)].
Qed.

Lemma main_frame_witness :
  files (main decimal_float sample_cfg (sample_env "9.30" 1700000000 true)
           (sample_world "medium" None "medium")).2 !! "/etc/hosts"
  = files (sample_world "medium" None "medium") !! "/etc/hosts".
Proof.
  apply (main_frame decimal_float sample_cfg (sample_env "9.30" 1700000000 true)
           (sample_world "medium" None "medium") "/etc/hosts"); computed.
Defined.

(** X3.  A run sends at most one PATCH, and only for the target it
    computed: exactly one, carrying the target, when the run reaches the
    decision and the target differs from the cached mode after the sync; none
    otherwise.  The target is under_attack or the configured normal mode,
    so no other level is ever written to the zone. *)
Theorem patch_is_the_target (py_float : string -> option Q) cfg e w :
  filter is_patch (trace (main py_float cfg e w).2) =
    (filter is_patch (trace w) ++
     match run_of py_float cfg e w with
     | Some r =>
         if decide (target_mode r = last_mode r) then []
         else [Patch (target_mode r)]
     | None => []
     end)%list
  /\ (forall r, run_of py_float cfg e w = Some r ->
        target_mode r = UNDER_ATTACK \/ target_mode r = LOW_LOAD_MODE cfg).
Proof.
  split; [|intros r Hr; by apply (target_range py_float cfg e w)].
  destruct (run_of py_float cfg e w) as [r|] eqn:Hr.
  - rewrite (main_run _ _ _ _ _ Hr). simpl.
    destruct (synced_facts _ cfg e _ _ Hr) as (_ & (evs & Hst & Hq) & _).
    destruct (decided_facts _ cfg e _ _ Hr) as (_ & Hdt & _).
    assert (filter is_patch (trace (decided r)) = filter is_patch (trace w)) as Hd.
    { rewrite Hdt, Hst, filter_app, filter_cons, (filter_quiet_patch _ Hq).
      rewrite decide_False by (by intros ?). by rewrite app_nil_r. }
    destruct (apply_mode_cases cfg e (Py.round2 (read_5min_load py_float e))
                (Py.round2 (LOAD_THRESHOLD cfg)) (last_mode r) (target_mode r) (decided r))
      as [[Heq ->] | [(Hne & _ & ->) | (Hne & _ & b & evs' & _ & _ & -> & Hdel)]].
    + rewrite decide_True by done. simpl. by rewrite Hd, app_nil_r.
    + rewrite decide_False by done. simpl. by rewrite filter_app, Hd.
    + rewrite decide_False by done.
      rewrite filter_app, Hd. f_equal.
      rewrite !filter_cons, (filter_delivery_patch _ Hdel).
      repeat case_decide; simpl in *; done.
  - destruct (run_of_none _ _ _ _ Hr) as [[_ ->] | (_ & _ & ->)]; simpl;
      rewrite filter_app; f_equal.
Qed.

(** X4.  After every run that reaches the decision the cache file holds
    the level of the zone, whether the PATCH was accepted, refused or not
    sent: a refused PATCH leaves both at the fetched level.  This needs a
    cache file that is neither the timestamp file nor the alert timestamp
    file and mode names without surrounding blanks. *)
Theorem cache_agrees_with_zone (py_float : string -> option Q) cfg e w r :
  run_of py_float cfg e w = Some r ->
  CACHE_FILE cfg <> TIMESTAMP_FILE cfg -> ALERT_TS_FILE cfg <> CACHE_FILE cfg ->
  Py.strip (zone_level w) = zone_level w ->
  Py.strip (LOW_LOAD_MODE cfg) = LOW_LOAD_MODE cfg ->
  cached cfg (main py_float cfg e w).2 = zone_level (main py_float cfg e w).2.
Proof.
  intros Hr H1 H2 Hz Hl.
  destruct (patch_success e) eqn:Hs.
  - rewrite (final_cached _ _ _ _ _ Hr (fun _ => Hs) H1 H2 Hz Hl).
    by destruct (final_facts _ _ _ _ _ Hr (fun _ => Hs)) as (-> & _).
  - rewrite (main_run _ _ _ _ _ Hr). simpl.
    pose proof (decided_cached _ _ _ _ _ Hr H1 H2 Hz) as Hdc.
    destruct (decided_facts _ cfg e _ _ Hr) as (Hdz & _).
    destruct (synced_facts _ cfg e _ _ Hr) as (Hsz & _).
    destruct (apply_mode_cases cfg e (Py.round2 (read_5min_load py_float e))
                (Py.round2 (LOAD_THRESHOLD cfg)) (last_mode r) (target_mode r) (decided r))
      as [[_ ->] | [(_ & _ & ->) | (_ & Hok & _)]]; [| |congruence].
    + simpl. congruence.
    + change (cached cfg (decided r) = zone_level (decided r)). congruence.
Qed.

Lemma cache_agrees_with_zone_witness :
  cached sample_cfg
    (main decimal_float sample_cfg (sample_env "9.30" 1700000000 false)
       (sample_world "medium" None "medium")).2
  = zone_level
      (main decimal_float sample_cfg (sample_env "9.30" 1700000000 false)
         (sample_world "medium" None "medium")).2.
Proof.
  the_run r Hr Hv.
  apply (cache_agrees_with_zone decimal_float _ _ _ r Hr); computed.
Defined.

(** X5.  A zone found at a level that is neither under_attack nor the
    configured normal mode (set by hand to high, say) is not left there:
    the run sends a PATCH for its target and, when the PATCH is accepted,
    the zone ends at under_attack or at the normal mode. *)
Theorem foreign_level_is_replaced (py_float : string -> option Q) cfg e w r :
  run_of py_float cfg e w = Some r ->
  zone_level w <> UNDER_ATTACK -> zone_level w <> LOW_LOAD_MODE cfg ->
  target_mode r <> last_mode r
  /\ Patch (target_mode r) ∈ trace (main py_float cfg e w).2
  /\ (patch_success e = true ->
      zone_level (main py_float cfg e w).2 = target_mode r
      /\ (target_mode r = UNDER_ATTACK \/ target_mode r = LOW_LOAD_MODE cfg)).
Proof.
  intros Hr Hua Hlow.
  pose proof (last_is_actual _ _ _ _ _ Hr) as Hla.
  pose proof (target_range _ _ _ _ _ Hr) as Hrange.
  assert (target_mode r <> last_mode r) as Hne.
  { rewrite Hla. by destruct Hrange as [-> | ->]. }
  split; [done|].
  rewrite (main_run _ _ _ _ _ Hr). simpl.
  destruct (apply_mode_cases cfg e (Py.round2 (read_5min_load py_float e))
              (Py.round2 (LOAD_THRESHOLD cfg)) (last_mode r) (target_mode r) (decided r))
    as [[Heq _] | [(_ & Hf & ->) | (_ & Hs & b & evs & _ & Hz & Ht & _)]]; [done| |].
  - split; [|congruence]. simpl. apply elem_of_app. right.
    apply elem_of_cons. right. apply elem_of_cons. by left.
  - split; [|done]. rewrite Ht. apply elem_of_app. right.
    apply elem_of_cons. right. apply elem_of_cons. by left.
Qed.

Lemma foreign_level_is_replaced_witness :
  exists r,
    run_of decimal_float sample_cfg (sample_env "1.00" 1700000000 true)
      (sample_world "high" None "high") = Some r
    /\ target_mode r <> last_mode r
    /\ Patch (target_mode r)
         ∈ trace (main decimal_float sample_cfg (sample_env "1.00" 1700000000 true)
                    (sample_world "high" None "high")).2.
Proof.
  the_run r Hr Hv. exists r. split; [exact Hr|].
  pose proof (foreign_level_is_replaced decimal_float _ _ _ r Hr) as H.
  specialize (H ltac:(computed) ltac:(computed)).
  split; [exact (proj1 H)|exact (proj1 (proj2 H))].
Defined.

Lemma activated_at_written cfg n w :
  files w !! TIMESTAMP_FILE cfg = Some (Py.str n) -> (activated_at cfg w).1 = n.
Proof.
  intros Hf. unfold activated_at. rewrite run_bind. unfold read_file, gets. simpl.
  rewrite Hf, strip_str.
  assert (or_else (Py.str n) "0" = Py.str n) as ->.
  { pose proof (str_nonempty n). by destruct (Py.str n). }
  by rewrite int_str.
Qed.

Lemma activated_at_unreadable cfg c w :
  files w !! TIMESTAMP_FILE cfg = Some c -> Py.int (Py.strip c) = None ->
  (activated_at cfg w).1 = 0.
Proof.
  intros Hf Hi. unfold activated_at. rewrite run_bind. unfold read_file, gets. simpl.
  rewrite Hf. destruct (Py.strip c) eqn:E; [done|]. simpl. by rewrite Hi.
Qed.

(** X6.  Two runs in a row.  The first one enters under_attack (cached
    mode not under_attack, rounded load above the rounded threshold, PATCH
    accepted): zone and cache are then under_attack and the timestamp file
    reads the time of that run.  A later run with the load back under the
    threshold holds under_attack, and does nothing but the GET, while less
    than the cooldown has passed since the first run; from the cooldown on
    it targets the normal mode, removes the timestamp file and sends the
    PATCH.  The three state files are distinct. *)
Theorem entry_starts_the_cooldown (py_float : string -> option Q) cfg e1 e2 w r1 :
  distinct_files cfg ->
  run_of py_float cfg e1 w = Some r1 ->
  last_mode r1 <> UNDER_ATTACK ->
  Py.gt (Py.round2 (read_5min_load py_float e1)) (Py.round2 (LOAD_THRESHOLD cfg)) = true ->
  patch_success e1 = true ->
  get_code e2 = 200 ->
  Py.gt (Py.round2 (read_5min_load py_float e2)) (Py.round2 (LOAD_THRESHOLD cfg)) = false ->
  let w1 := (main py_float cfg e1 w).2 in
  zone_level w1 = UNDER_ATTACK
  /\ cached cfg w1 = UNDER_ATTACK
  /\ (activated_at cfg w1).1 = now e1
  /\ exists r2, run_of py_float cfg e2 w1 = Some r2
       /\ (now e2 - now e1 < cooldown_seconds cfg ->
           target_mode r2 = UNDER_ATTACK
           /\ main py_float cfg e2 w1 = (0, with_events [Get] w1))
       /\ (cooldown_seconds cfg <= now e2 - now e1 ->
           target_mode r2 = LOW_LOAD_MODE cfg
           /\ ~ timestamp_present cfg (decided r2)
           /\ (LOW_LOAD_MODE cfg <> UNDER_ATTACK ->
               Patch (LOW_LOAD_MODE cfg) ∈ trace (main py_float cfg e2 w1).2)).
Proof.
  intros (H1 & H2 & H3) Hr1 Hlast Hgt1 Hs Hc2 Hgt2 w1.
  pose proof (run_of_inv _ _ _ _ _ Hr1) as (Hzid & Htok & _ & _ & _ & _ & _ & Hd).
  simpl in Hd. rewrite (determine_target_high _ _ _ _ _ _ Hgt1) in Hd.
  rewrite decide_False in Hd by done. injection Hd as Ht Hw.
  assert (target_mode r1 <> last_mode r1) as Hne by congruence.
  destruct (final_facts _ _ _ _ _ Hr1 (fun _ => Hs)) as (Hfz & _ & Hdiff).
  destruct (Hdiff Hne) as [b Hf]. fold w1 in Hfz, Hf.
  rewrite <- Ht in Hfz, Hf. rewrite <- Hw in Hf. simpl in Hf.
  assert (files w1 !! CACHE_FILE cfg = Some UNDER_ATTACK) as Hcache
    by (rewrite Hf; destruct b; by simplify_map_eq).
  assert (files w1 !! TIMESTAMP_FILE cfg = Some (Py.str (now e1))) as Hts
    by (rewrite Hf; destruct b; by simplify_map_eq).
  pose proof (cached_lookup cfg w1 _ Hcache strip_under_attack) as Hcached.
  pose proof (activated_at_written cfg _ _ Hts) as Hact.
  split; [done|]. split; [done|]. split; [done|].
  assert (zone_level w1 <> EmptyString) as Hzne by (by rewrite Hfz).
  destruct (run_of_some py_float cfg e2 w1 Hzid Htok Hc2 Hzne) as [r2 Hr2].
  exists r2. split; [done|].
  pose proof (run_of_inv _ _ _ _ _ Hr2) as (_ & _ & _ & _ & Ha2 & Hcm2 & Hs2 & Hd2).
  simpl in Hs2, Hd2.
  assert (actual_mode r2 = cached_mode r2) as Heq2 by congruence.
  rewrite (sync_cache_same _ _ _ _ _ _ _ Heq2) in Hs2. injection Hs2 as Hl2 Hsy2.
  assert (last_mode r2 = UNDER_ATTACK) as Hlast2 by congruence.
  rewrite <- Hsy2, Hlast2 in Hd2.
  assert (timestamp_present cfg (with_events [Get] w1)) as Hp
    by (unfold timestamp_present; simpl; by rewrite Hts).
  change ((activated_at cfg (with_events [Get] w1)).1) with ((activated_at cfg w1).1) in *.
  split.
  - intros Hlt.
    rewrite determine_target_hold in Hd2; [|done|done|].
    2:{ change ((activated_at cfg (with_events [Get] w1)).1) with ((activated_at cfg w1).1).
        by rewrite Hact. }
    injection Hd2 as Ht2 Hw2. split; [done|].
    rewrite (main_run _ _ _ _ _ Hr2), Hlast2, <- Ht2, <- Hw2.
    by rewrite apply_mode_same.
  - intros Hge.
    rewrite determine_target_expire in Hd2; [|done|done|].
    2:{ change ((activated_at cfg (with_events [Get] w1)).1) with ((activated_at cfg w1).1).
        by rewrite Hact. }
    injection Hd2 as Ht2 Hw2.
    split; [done|]. split.
    { rewrite <- Hw2. unfold timestamp_present. simpl. rewrite lookup_delete_eq.
      by intros [? ?]. }
    intros Hlow.
    rewrite (main_run _ _ _ _ _ Hr2), Hlast2, <- Ht2. simpl.
    destruct (apply_mode_cases cfg e2 (Py.round2 (read_5min_load py_float e2))
                (Py.round2 (LOAD_THRESHOLD cfg)) UNDER_ATTACK (LOW_LOAD_MODE cfg) (decided r2))
      as [[Heq _] | [(_ & _ & ->) | (_ & _ & b' & evs & _ & _ & -> & _)]]; [done|..];
      simpl; apply elem_of_app; right; apply elem_of_cons; right;
      apply elem_of_cons; by left.
Qed.

Lemma entry_starts_the_cooldown_witness :
  exists r2,
    run_of decimal_float sample_cfg (sample_env "1.00" 1700000600 true)
      (main decimal_float sample_cfg (sample_env "9.30" 1700000000 true)
         (sample_world "medium" None "medium")).2 = Some r2
    /\ target_mode r2 = UNDER_ATTACK.
Proof.
  the_run r Hr Hv.
  assert (last_mode r <> UNDER_ATTACK) as H1 by computed_run Hv.
  pose proof (entry_starts_the_cooldown decimal_float sample_cfg
                (sample_env "9.30" 1700000000 true) (sample_env "1.00" 1700000600 true)
                (sample_world "medium" None "medium") r
                ltac:(repeat split; computed) Hr H1 ltac:(computed) eq_refl eq_refl
                ltac:(computed)) as H.
  simpl in H. destruct H as (_ & _ & _ & r2 & Hr2 & Hhold & _).
  exists r2. split; [exact Hr2|]. apply Hhold. computed.
Defined.

(** X7.  With the cached mode at under_attack and the load not above the
    threshold, the hold depends on the timestamp file.  Without the file the
    target is the normal mode at once.  With a file whose content is not an
    integer the activation time counts as 0: the target stays under_attack
    only while the clock itself is below the cooldown, and otherwise the
    normal mode is targeted and the file removed. *)
Theorem hold_needs_a_readable_timestamp (py_float : string -> option Q) cfg e w r :
  run_of py_float cfg e w = Some r ->
  last_mode r = UNDER_ATTACK ->
  Py.gt (Py.round2 (read_5min_load py_float e)) (Py.round2 (LOAD_THRESHOLD cfg)) = false ->
  (~ timestamp_present cfg (synced r) ->
     target_mode r = LOW_LOAD_MODE cfg /\ decided r = synced r)
  /\ (forall c,
        files (synced r) !! TIMESTAMP_FILE cfg = Some c -> Py.int (Py.strip c) = None ->
        (now e < cooldown_seconds cfg -> target_mode r = UNDER_ATTACK /\ decided r = synced r)
        /\ (cooldown_seconds cfg <= now e ->
            target_mode r = LOW_LOAD_MODE cfg /\ ~ timestamp_present cfg (decided r))).
Proof.
  intros Hr Hlast Hgt.
  pose proof (run_of_inv _ _ _ _ _ Hr) as (_ & _ & _ & _ & _ & _ & _ & Hd).
  simpl in Hd. rewrite Hlast in Hd. split.
  - intros Hp. rewrite (determine_target_low _ _ _ _ _ _ Hgt (or_intror Hp)) in Hd.
    by injection Hd.
  - intros c Hf Hi.
    pose proof (activated_at_unreadable cfg c _ Hf Hi) as Hact.
    assert (timestamp_present cfg (synced r)) as Hp
      by (unfold timestamp_present; by rewrite Hf).
    split.
    + intros Hlt. rewrite determine_target_hold in Hd; [by injection Hd|done|done|].
      rewrite Hact. lia.
    + intros Hge. rewrite determine_target_expire in Hd; [|done|done|rewrite Hact; lia].
      injection Hd as Ht Hw. split; [done|].
      rewrite <- Hw. unfold timestamp_present. simpl. rewrite lookup_delete_eq.
      by intros [? ?].
Qed.

Lemma hold_needs_a_readable_timestamp_witness :
  exists r,
    run_of decimal_float sample_cfg (sample_env "1.00" 1700000000 true)
      (sample_world "under_attack" (Some "yesterday") "under_attack") = Some r
    /\ target_mode r = LOW_LOAD_MODE sample_cfg.
Proof.
  the_run r Hr Hv. exists r. split; [exact Hr|].
  assert (last_mode r = UNDER_ATTACK) as H1 by computed_run Hv.
  assert (files (synced r) !! TIMESTAMP_FILE sample_cfg = Some "yesterday") as H2
    by computed_run Hv.
  pose proof (hold_needs_a_readable_timestamp decimal_float _ _ _ r Hr H1 ltac:(computed))
    as [_ H].
  destruct (H "yesterday" H2 ltac:(computed)) as [_ Hexp].
  apply Hexp. computed.
Defined.

(** ** Alerts *)

Lemma deliveries_app a b : deliveries (a ++ b)%list = (deliveries a + deliveries b)%nat.
Proof. unfold deliveries. by rewrite filter_app, length_app. Qed.

Lemma deliveries_all evs : forallb is_delivery evs = true -> deliveries evs = length evs.
Proof.
  unfold deliveries. induction evs as [|ev evs IH]; [done|]. simpl.
  intros [Hev Hevs]%andb_true_iff. rewrite filter_cons.
  rewrite decide_True by (by apply Is_true_true). simpl. by rewrite IH.
Qed.

Lemma deliver_unready cfg e m h t l th w :
  channel_ready cfg e = false -> deliver cfg e m h t l th w = (tt, w).
Proof.
  unfold channel_ready, deliver, alert_slack, alert_email, alert_command, when.
  repeat case_decide; repeat case_bool_decide; simpl; try done.
  destruct (has_sendmail e), (has_mail e); simpl; done.
Qed.

(** X8.  Whatever the configuration, a call of [send_alert] leaves the level
    of the zone alone, changes no file but the alert timestamp file, and
    adds to the trace at most one event, which is a delivery attempt. *)
Theorem send_alert_frame cfg e m h t l th w :
  zone_level (send_alert cfg e m h t l th w).2 = zone_level w
  /\ (forall p, p <> ALERT_TS_FILE cfg ->
        files (send_alert cfg e m h t l th w).2 !! p = files w !! p)
  /\ exists evs,
       trace (send_alert cfg e m h t l th w).2 = (trace w ++ evs)%list
       /\ forallb is_delivery evs = true
       /\ (length evs <= 1)%nat.
Proof.
  destruct (deliver_effect cfg e m h t l th w) as (evs & Hd & Hdel & Hn).
  pose proof (deliveries_all _ Hdel) as Hlen. rewrite Hn in Hlen.
  assert ((length evs <= 1)%nat) as Hle by (destruct (channel_ready cfg e); lia).
  set (r := send_alert cfg e m h t l th w).
  assert (r.2 = w \/ r.2 = (record_alert_ts e (ALERT_TS_FILE cfg) (with_events evs w)).2)
    as [Hr|Hr].
  { subst r. unfold send_alert. case_decide; [by left|].
    rewrite run_bind, can_alert_world.
    destruct (can_alert _ _ _ w).1; simpl; [|by left].
    right. by rewrite run_bind, Hd. }
  - rewrite Hr. split; [done|]. split; [done|].
    exists []. rewrite app_nil_r. repeat split; simpl; lia.
  - rewrite Hr. unfold record_alert_ts. case_decide.
    + split; [done|]. split; [done|]. by exists evs.
    + unfold write_file, set_files, modify. rewrite !run_bind. simpl.
      split; [done|]. split; [intros p Hp; by simplify_map_eq|]. by exists evs.
Qed.

Lemma fire_silent cfg e m t l th w :
  ALERT_MODE cfg = "none" -> fire cfg e m t l th w = (tt, with_events [Alert m] w).
Proof.
  intros Hm. unfold fire. rewrite run_bind. unfold send_alert.
  by rewrite decide_True by done.
Qed.

(** X9.  With the alert mode none a run attempts no delivery, and the alert
    timestamp file, when it is neither of the other two state files, is left
    as it was. *)
Theorem silent_mode_delivers_nothing (py_float : string -> option Q) cfg e w :
  ALERT_MODE cfg = "none" ->
  deliveries (trace (main py_float cfg e w).2) = deliveries (trace w)
  /\ (ALERT_TS_FILE cfg <> CACHE_FILE cfg -> ALERT_TS_FILE cfg <> TIMESTAMP_FILE cfg ->
      files (main py_float cfg e w).2 !! ALERT_TS_FILE cfg = files w !! ALERT_TS_FILE cfg).
Proof.
  intros Hm.
  destruct (run_of py_float cfg e w) as [r|] eqn:Hr.
  - pose proof (run_of_inv _ _ _ _ _ Hr) as (_ & _ & _ & _ & _ & _ & Hs & _).
    simpl in Hs.
    destruct (decided_facts _ cfg e _ _ Hr) as (_ & Hdt & Hdf).
    set (l := Py.round2 (read_5min_load py_float e)) in *.
    set (th := Py.round2 (LOAD_THRESHOLD cfg)) in *.
    (* the sync step *)
    assert (deliveries (trace (synced r)) = deliveries (trace w)
            /\ (ALERT_TS_FILE cfg <> CACHE_FILE cfg -> ALERT_TS_FILE cfg <> TIMESTAMP_FILE cfg ->
                files (synced r) !! ALERT_TS_FILE cfg = files w !! ALERT_TS_FILE cfg))
      as [Hsd Hsf].
    { destruct (decide (actual_mode r = cached_mode r)) as [Heq|Hne].
      - rewrite (sync_cache_same _ _ _ _ _ _ _ Heq) in Hs. injection Hs as _ <-.
        simpl. by rewrite deliveries_app, Nat.add_0_r.
      - rewrite (sync_cache_drift _ _ _ _ _ _ _ Hne) in Hs.
        rewrite (fire_silent _ _ _ _ _ _ _ Hm) in Hs. injection Hs as _ <-.
        simpl. split.
        + by rewrite !deliveries_app, !Nat.add_0_r.
        + intros H2 H3. case_decide; by simplify_map_eq. }
    rewrite (main_run _ _ _ _ _ Hr). fold l th. simpl.
    destruct (decide (target_mode r = last_mode r)) as [Heq|Hne].
    + rewrite Heq, apply_mode_same. simpl. rewrite Hdt. split; [done|].
      intros H2 H3. rewrite <- (Hsf H2 H3).
      destruct Hdf as [-> | [-> | ->]]; by simplify_map_eq.
    + destruct (patch_success e) eqn:Hps.
      * rewrite (apply_mode_done _ _ _ _ _ _ _ Hne Hps).
        rewrite (fire_silent _ _ _ _ _ _ _ Hm). simpl. split.
        -- by rewrite !deliveries_app, Hdt, Hsd, !Nat.add_0_r.
        -- intros H2 H3. rewrite <- (Hsf H2 H3).
           destruct Hdf as [-> | [-> | ->]]; by simplify_map_eq.
      * rewrite (apply_mode_failed _ _ _ _ _ _ _ Hne Hps). simpl. split.
        -- by rewrite deliveries_app, Hdt, Hsd, Nat.add_0_r.
        -- intros H2 H3. rewrite <- (Hsf H2 H3).
           destruct Hdf as [-> | [-> | ->]]; by simplify_map_eq.
  - destruct (run_of_none _ _ _ _ Hr) as [[_ ->] | (_ & _ & ->)]; simpl;
      by rewrite deliveries_app, Nat.add_0_r.
Qed.

Lemma silent_mode_delivers_nothing_witness :
  deliveries
    (trace (main decimal_float (set_alert_mode "none" sample_cfg)
              (sample_env "9.30" 1700000000 true)
              (sample_world "medium" None "medium")).2)
  = deliveries (trace (sample_world "medium" None "medium")).
Proof.
  exact (proj1 (silent_mode_delivers_nothing decimal_float
                  (set_alert_mode "none" sample_cfg) (sample_env "9.30" 1700000000 true)
                  (sample_world "medium" None "medium") eq_refl)).
Defined.

(** X10.  The alert cooldown is spent even when nothing can be delivered.
    With an alert mode other than none whose channel lacks what it needs (no
    webhook, no recipient or no mailer, no command, or an unknown mode name),
    a call of [send_alert] outside the cooldown window attempts nothing and
    still stamps the alert timestamp file; every call within the window after
    it is dropped. *)
Theorem unready_channel_spends_cooldown cfg e m h t l th w :
  ALERT_MODE cfg <> "none" -> ALERT_TS_FILE cfg <> EmptyString ->
  channel_ready cfg e = false ->
  Py.trunc (ALERT_COOLDOWN_MIN cfg * 60) <= now e - (last_alert (ALERT_TS_FILE cfg) w).1 ->
  send_alert cfg e m h t l th w =
    (tt, with_files (<[ALERT_TS_FILE cfg := Py.str (now e)]> (files w)) w)
  /\ forall e2 m2 h2 t2 l2 th2,
       now e2 - now e < Py.trunc (ALERT_COOLDOWN_MIN cfg * 60) ->
       send_alert cfg e2 m2 h2 t2 l2 th2 (send_alert cfg e m h t l th w).2
       = (tt, (send_alert cfg e m h t l th w).2).
Proof.
  intros Hm Hf Hready Hge.
  assert (send_alert cfg e m h t l th w =
    (tt, with_files (<[ALERT_TS_FILE cfg := Py.str (now e)]> (files w)) w)) as Hsent.
  { rewrite send_alert_sent; [|done|].
    - rewrite (deliver_unready _ _ _ _ _ _ _ _ Hready). simpl.
      unfold record_alert_ts. rewrite decide_False by done.
      unfold write_file, set_files, modify. by rewrite !run_bind.
    - rewrite can_alert_value by done. by apply Z.leb_le. }
  split; [done|].
  intros e2 m2 h2 t2 l2 th2 Hsoon. rewrite Hsent. simpl.
  apply send_alert_suppressed; [done|].
  rewrite can_alert_value by done.
  rewrite (last_alert_written _ (now e)) by (simpl; by simplify_map_eq).
  apply Z.leb_gt. lia.
Qed.

Lemma unready_channel_spends_cooldown_witness :
  send_alert (set_alert_mode "email" sample_cfg) (sample_env "9.30" 1700000000 true)
    (ManualUnderAttack "web1" 1700000000) "web1" UNDER_ATTACK 9.3 7
    (sample_world "medium" None "under_attack")
  = (tt, with_files
           (<[ALERT_TS_FILE (set_alert_mode "email" sample_cfg) := Py.str 1700000000]>
              (files (sample_world "medium" None "under_attack")))
           (sample_world "medium" None "under_attack")).
Proof.
  apply (unready_channel_spends_cooldown (set_alert_mode "email" sample_cfg)
           (sample_env "9.30" 1700000000 true)); computed.
Defined.

(** X11.  [can_alert] without a usable record of the last alert.  With an
    empty timestamp path it always allows the alert.  With a path whose file
    is missing or does not hold an integer the last alert counts as sent at
    time 0: the alert is allowed exactly when the clock is at least the
    cooldown in seconds, truncated to an integer. *)
Theorem can_alert_without_history e f c w :
  (f = EmptyString -> (can_alert e f c w).1 = true)
  /\ (f <> EmptyString ->
      files w !! f = None
      \/ (exists s, files w !! f = Some s /\ Py.int (Py.strip s) = None) ->
      (can_alert e f c w).1 = (Py.trunc (c * 60) <=? now e)).
Proof.
  split.
  - intros ->. unfold can_alert. by rewrite decide_True.
  - intros Hf Hfile. rewrite can_alert_value by done.
    assert ((last_alert f w).1 = 0) as ->; [|by rewrite Z.sub_0_r].
    unfold last_alert. rewrite run_bind. unfold read_file, gets. simpl.
    destruct Hfile as [-> | (s & -> & Hi)]; [done|].
    destruct (Py.strip s) eqn:E; [done|]. simpl. by rewrite Hi.
Qed.

(** ** The configuration file *)

(** ** Facts on text *)

Lemma append_cons c x y : String c x ++ y = String c (x ++ y).
Proof. reflexivity. Qed.

Lemma append_nil y : EmptyString ++ y = y.
Proof. reflexivity. Qed.

Ltac text_simpl := rewrite ?append_cons, ?append_nil; simpl; rewrite ?append_cons, ?append_nil.

Lemma rstrip_cons_keep c r :
  Py.isspace c = false -> Py.rstrip (String c r) = String c (Py.rstrip r).
Proof. intros Hc. simpl. rewrite Hc. by destruct (Py.rstrip r). Qed.

Lemma rstrip_app_keep x y :
  Py.rstrip y <> EmptyString -> Py.rstrip (x ++ y) = x ++ Py.rstrip y.
Proof.
  intros Hy. induction x as [|c x IH]; [done|]. text_simpl. rewrite IH.
  destruct (x ++ Py.rstrip y) eqn:E; [|done].
  destruct x; [rewrite append_nil in E; done|rewrite append_cons in E; discriminate].
Qed.

Lemma rstrip_idem s : Py.rstrip (Py.rstrip s) = Py.rstrip s.
Proof.
  induction s as [|c r IH]; [done|]. simpl.
  destruct (Py.rstrip r) as [|d r'] eqn:E.
  - destruct (Py.isspace c) eqn:Hc; [done|]. simpl. by rewrite Hc.
  - simpl in *. rewrite IH. done.
Qed.

Lemma lstrip_head s :
  Py.lstrip s = EmptyString
  \/ exists c r, Py.lstrip s = String c r /\ Py.isspace c = false.
Proof.
  induction s as [|c r IH]; [by left|]. simpl.
  destruct (Py.isspace c) eqn:Hc; [done|]. right. eauto.
Qed.

Lemma lstrip_keep c r : Py.isspace c = false -> Py.lstrip (String c r) = String c r.
Proof. intros Hc. simpl. by rewrite Hc. Qed.

(** What [strip] returns is empty or begins and ends with a character that
    is not blank; stripping it again changes nothing. *)
Lemma strip_idem s : Py.strip (Py.strip s) = Py.strip s.
Proof.
  unfold Py.strip.
  destruct (lstrip_head s) as [-> | (c & r & -> & Hc)]; [done|].
  rewrite (rstrip_cons_keep _ _ Hc), (lstrip_keep _ _ Hc).
  by rewrite (rstrip_cons_keep _ _ Hc), rstrip_idem.
Qed.

Lemma lstrip_blank_app ws s :
  Py.all_chars Py.isspace ws = true -> Py.lstrip (ws ++ s) = Py.lstrip s.
Proof.
  induction ws as [|c ws IH]; [done|]. text_simpl.
  intros [Hc Hws]%andb_true_iff. rewrite Hc. by apply IH.
Qed.

Lemma rstrip_blank ws : Py.all_chars Py.isspace ws = true -> Py.rstrip ws = EmptyString.
Proof.
  induction ws as [|c ws IH]; [done|]. simpl.
  intros [Hc Hws]%andb_true_iff. by rewrite (IH Hws), Hc.
Qed.

Lemma rstrip_app_blank s ws :
  Py.all_chars Py.isspace ws = true -> Py.rstrip (s ++ ws) = Py.rstrip s.
Proof.
  intros Hws. induction s as [|c s IH]; text_simpl; [by apply rstrip_blank|].
  by rewrite IH.
Qed.

Lemma rstrip_last s d :
  Py.isspace d = false -> Py.rstrip (s ++ String d EmptyString) = s ++ String d EmptyString.
Proof.
  intros Hd. rewrite rstrip_app_keep; simpl; by rewrite Hd.
Qed.

Lemma contains_app c a b : Text.contains c (a ++ b) = Text.contains c a || Text.contains c b.
Proof.
  induction a as [|d a IH]; [done|]. text_simpl. by rewrite IH, orb_assoc.
Qed.

Lemma contains_lstrip c s : Text.contains c (Py.lstrip s) = true -> Text.contains c s = true.
Proof.
  induction s as [|d r IH]; [done|]. simpl.
  destruct (Py.isspace d); [|done]. intros H. by rewrite (IH H), orb_true_r.
Qed.

Lemma contains_rstrip c s : Text.contains c (Py.rstrip s) = true -> Text.contains c s = true.
Proof.
  induction s as [|d r IH]; [done|]. simpl.
  destruct (Py.rstrip r) as [|d' r'] eqn:E.
  - destruct (Py.isspace d); [done|]. simpl. rewrite orb_false_r. by intros ->.
  - simpl in *. intros [->|H]%orb_true_iff; [done|]. by rewrite (IH H), orb_true_r.
Qed.

Lemma contains_strip c s : Text.contains c (Py.strip s) = true -> Text.contains c s = true.
Proof. intros H. by apply contains_lstrip, contains_rstrip. Qed.

Lemma contains_strip_false c s : Text.contains c s = false -> Text.contains c (Py.strip s) = false.
Proof.
  intros H. destruct (Text.contains c (Py.strip s)) eqn:E; [|done].
  apply contains_strip in E. congruence.
Qed.

Lemma partition_absent c s : Text.contains c s = false -> Text.partition c s = (s, EmptyString).
Proof.
  induction s as [|d r IH]; [done|]. simpl.
  intros [Hd Hr]%orb_false_iff. rewrite Hd, (IH Hr). done.
Qed.

Lemma partition_first c a b :
  Text.contains c a = false -> Text.partition c (a ++ String c b) = (a, b).
Proof.
  induction a as [|d a IH]; text_simpl.
  - by rewrite Ascii.eqb_refl.
  - intros [Hd Ha]%orb_false_iff. rewrite Hd, (IH Ha). done.
Qed.

Lemma partition_fst_clean c s : Text.contains c (Text.partition c s).1 = false.
Proof.
  induction s as [|d r IH]; [done|]. simpl.
  destruct (Ascii.eqb d c) eqn:E; [done|].
  destruct (Text.partition c r) as [a b]. simpl in *. by rewrite E, IH.
Qed.

Lemma partition_fst_contains c d s :
  Text.contains d (Text.partition c s).1 = true -> Text.contains d s = true.
Proof.
  induction s as [|x r IH]; [done|]. simpl.
  destruct (Ascii.eqb x c) eqn:E; [done|].
  destruct (Text.partition c r) as [a b]. simpl in *.
  intros [->|H]%orb_true_iff; [done|]. by rewrite (IH H), orb_true_r.
Qed.

Lemma no_quote_no_unescaped b s :
  Text.contains Text.DQUOTE s = false -> Text.unescaped_quote_from b s = false.
Proof.
  revert b. induction s as [|d r IH]; [done|]. simpl.
  intros b [Hd Hr]%orb_false_iff. by rewrite Hd, (IH _ Hr).
Qed.

Lemma unescaped_after b a c r :
  Ascii.eqb c Text.BACKSLASH = false ->
  Text.unescaped_quote_from b (a ++ String c (String Text.DQUOTE r)) = true.
Proof.
  intros Hc. revert b. induction a as [|d a IH]; intros b; text_simpl.
  - rewrite Hc. simpl. by rewrite orb_true_r.
  - by rewrite IH, orb_true_r.
Qed.

Lemma endswith_last s d c : Text.endswith c (s ++ String d EmptyString) = Ascii.eqb d c.
Proof.
  induction s as [|x s IH]; [done|]. text_simpl. rewrite IH.
  destruct (s ++ String d EmptyString) eqn:E; [|done].
  destruct s; [rewrite append_nil in E|rewrite append_cons in E]; discriminate.
Qed.

Lemma drop_last_last s d : Text.drop_last (s ++ String d EmptyString) = s.
Proof.
  induction s as [|x s IH]; [done|]. text_simpl. rewrite IH.
  destruct (s ++ String d EmptyString) eqn:E; [|done].
  destruct s; [rewrite append_nil in E|rewrite append_cons in E]; discriminate.
Qed.

Lemma load_config_lines_app a b :
  load_config_lines (a ++ b) = foldl assign (load_config_lines a) b.
Proof. unfold load_config_lines. by rewrite foldl_app. Qed.

Lemma foldl_assign_other (k : string) lines (cfg : gmap string string) :
  (forall raw v, raw ∈ lines -> parse_line raw <> Some (k, v)) ->
  foldl assign cfg lines !! k = cfg !! k.
Proof.
  revert cfg. induction lines as [|raw lines IH]; intros cfg Hno; [done|]. simpl.
  rewrite IH.
  - unfold assign. destruct (parse_line raw) as [[k' v']|] eqn:E; [|done].
    destruct (decide (k' = k)) as [->|Hne]; [|by simplify_map_eq].
    exfalso. by apply (Hno raw v'); [left|].
  - intros raw' v' Hin. apply Hno. by right.
Qed.

(** X12.  In the configuration file the last assignment of a key wins:
    when a line assigns [v] to [k] and no later line assigns [k], the
    dictionary [load_config] builds maps [k] to [v], whatever came before. *)
Theorem last_assignment_wins before raw after k v :
  parse_line raw = Some (k, v) ->
  (forall raw' v', raw' ∈ after -> parse_line raw' <> Some (k, v')) ->
  load_config_lines (before ++ raw :: after) !! k = Some v.
Proof.
  intros Hraw Hno. rewrite load_config_lines_app. simpl.
  rewrite (foldl_assign_other k after _ Hno).
  unfold assign. rewrite Hraw. by simplify_map_eq.
Qed.

Lemma last_assignment_wins_witness :
  load_config_lines
    (["# cf-guard"; "LOAD_THRESHOLD=7"] ++ "LOAD_THRESHOLD = 9.5" :: ["COOLDOWN_HOURS=1"])
    !! "LOAD_THRESHOLD" = Some "9.5".
Proof.
  apply last_assignment_wins; [reflexivity|].
  intros raw' v' Hin.
  repeat (apply elem_of_cons in Hin as [-> | Hin]; [computed|]).
  by apply elem_of_nil in Hin.
Defined.

Lemma parse_line_skipped raw :
  Py.strip raw = EmptyString
  \/ Text.startswith Text.HASH (Py.strip raw) = true
  \/ Text.contains Text.EQUALS raw = false ->
  parse_line raw = None.
Proof.
  unfold parse_line. intros [-> | [-> | Hno]]; [done|by rewrite orb_true_r|].
  destruct (bool_decide _ || _); [done|].
  assert (Text.contains Text.EQUALS (Py.strip raw) = false) as Hs
    by (by apply contains_strip_false).
  destruct (Text.contains Text.HASH (Py.strip raw) && _).
  - rewrite contains_strip_false; [done|].
    destruct (Text.contains Text.EQUALS (Text.partition Text.HASH (Py.strip raw)).1) eqn:E;
      [|done].
    apply partition_fst_contains in E. congruence.
  - by rewrite Hs.
Qed.

(** X13.  A blank line, a line whose first character that is not blank
    is a hash, and a line without an equals sign can be taken out of the
    configuration file without changing the dictionary. *)
Theorem skipped_lines_change_nothing before raw after :
  Py.strip raw = EmptyString
  \/ Text.startswith Text.HASH (Py.strip raw) = true
  \/ Text.contains Text.EQUALS raw = false ->
  load_config_lines (before ++ raw :: after) = load_config_lines (before ++ after).
Proof.
  intros H. rewrite !load_config_lines_app. simpl.
  unfold assign at 2. by rewrite (parse_line_skipped raw H).
Qed.

Lemma skipped_lines_change_nothing_witness :
  load_config_lines (["ZONE_ID=zone"] ++ "  # not read" :: ["CF_API_TOKEN=token"])
  = load_config_lines (["ZONE_ID=zone"] ++ ["CF_API_TOKEN=token"]).
Proof.
  apply skipped_lines_change_nothing. right. left. reflexivity.
Defined.

Lemma parse_line_key raw k v :
  parse_line raw = Some (k, v) ->
  Py.strip k = k /\ Text.contains Text.EQUALS k = false.
Proof.
  unfold parse_line.
  destruct (bool_decide _ || _); [done|].
  set (line := if Text.contains Text.HASH (Py.strip raw) && _ then _ else _).
  destruct (negb (Text.contains Text.EQUALS line)); [done|].
  pose proof (partition_fst_clean Text.EQUALS line) as Hclean.
  destruct (Text.partition Text.EQUALS line) as [k0 v0]. simpl in Hclean.
  intros [= <- _]. split; [apply strip_idem|by apply contains_strip_false].
Qed.

(** X14.  Every key of the dictionary [load_config] builds is stripped of
    surrounding blanks and contains no equals sign. *)
Theorem config_keys_are_clean lines k v :
  load_config_lines lines !! k = Some v ->
  Py.strip k = k /\ Text.contains Text.EQUALS k = false.
Proof.
  induction lines as [|raw lines IH] using rev_ind; [done|].
  rewrite load_config_lines_app. simpl. unfold assign at 1.
  destruct (parse_line raw) as [[k' v']|] eqn:E; [|done].
  destruct (decide (k' = k)) as [->|Hne].
  - intros _. by apply (parse_line_key raw k v').
  - rewrite lookup_insert_ne by done. done.
Qed.

Lemma config_keys_are_clean_witness :
  Py.strip "LOAD_THRESHOLD" = "LOAD_THRESHOLD"
  /\ Text.contains Text.EQUALS "LOAD_THRESHOLD" = false.
Proof.
  apply (config_keys_are_clean sample_conf "LOAD_THRESHOLD" "9.5"). computed.
Defined.

Lemma append_assoc_s (a b c : string) : (a ++ b) ++ c = a ++ (b ++ c).
Proof. induction a as [|x a IH]; [done|]. rewrite !append_cons. by rewrite IH. Qed.

Ltac text_norm :=
  repeat (rewrite append_assoc_s || rewrite append_cons || rewrite append_nil).

Lemma stripped_head s :
  s <> EmptyString -> Py.strip s = s ->
  exists c r, s = String c r /\ Py.isspace c = false.
Proof.
  intros Hne Hs. unfold Py.strip in Hs.
  destruct (lstrip_head s) as [E | (c & r & E & Hc)].
  - rewrite E in Hs. simpl in Hs. congruence.
  - rewrite E, (rstrip_cons_keep _ _ Hc) in Hs. exists c, (Py.rstrip r). by rewrite <- Hs.
Qed.

Lemma stripped_rstrip s : Py.strip s = s -> Py.rstrip s = s.
Proof. intros Hs. rewrite <- Hs at 1. unfold Py.strip. by rewrite rstrip_idem. Qed.

Lemma blank_not c d : Py.isspace c = true -> Py.isspace d = false -> Ascii.eqb c d = false.
Proof. intros Hc Hd. apply Ascii.eqb_neq. by intros ->; congruence. Qed.

Lemma blank_contains ws d :
  Py.all_chars Py.isspace ws = true -> Py.isspace d = false -> Text.contains d ws = false.
Proof.
  intros Hws Hd. induction ws as [|c ws IH]; [done|]. simpl in *.
  apply andb_true_iff in Hws as [Hc Hws]. by rewrite (blank_not _ _ Hc Hd), IH.
Qed.

Lemma unescaped_after_blanks ws r :
  Py.all_chars Py.isspace ws = true ->
  Text.unescaped_quote_from false (ws ++ String Text.DQUOTE r) = true.
Proof.
  induction ws as [|c ws IH]; [done|]. text_simpl.
  intros [Hc Hws]%andb_true_iff.
  rewrite (blank_not c Text.BACKSLASH Hc eq_refl), (IH Hws). by rewrite orb_true_r.
Qed.

Lemma unescaped_after_equals b p ws r :
  Py.all_chars Py.isspace ws = true ->
  Text.unescaped_quote_from b (p ++ String Text.EQUALS (ws ++ String Text.DQUOTE r)) = true.
Proof.
  intros Hws. revert b. induction p as [|c p IH]; intros b; text_simpl.
  - by rewrite (unescaped_after_blanks _ _ Hws).
  - by rewrite IH, orb_true_r.
Qed.

Lemma lstrip_stripped_app k s :
  k <> EmptyString -> Py.strip k = k -> Py.lstrip (k ++ s) = k ++ s.
Proof.
  intros Hne Hk. destruct (stripped_head k Hne Hk) as (c & kr & -> & Hc).
  by rewrite append_cons, (lstrip_keep _ _ Hc).
Qed.

Lemma app_nonempty k s : k <> EmptyString -> k ++ s <> EmptyString.
Proof. by destruct k. Qed.

Lemma startswith_app c k s :
  k <> EmptyString -> Text.startswith c (k ++ s) = Text.startswith c k.
Proof. by destruct k. Qed.

(** X15.  A value between double quotes is read back as written, with its
    hashes, equals signs and blanks: the line made of a key (stripped, not
    empty, without an equals sign, not starting with a hash), an equals sign
    and the quoted value, with any blanks at its ends and around the equals
    sign, assigns exactly the text between the quotes. *)
Theorem quoted_value_is_kept ws1 ws2 ws3 ws4 k v :
  Py.all_chars Py.isspace ws1 = true -> Py.all_chars Py.isspace ws2 = true ->
  Py.all_chars Py.isspace ws3 = true -> Py.all_chars Py.isspace ws4 = true ->
  k <> EmptyString -> Py.strip k = k ->
  Text.contains Text.EQUALS k = false -> Text.startswith Text.HASH k = false ->
  parse_line (ws1 ++ k ++ ws2 ++ String Text.EQUALS (ws3 ++ quoted v ++ ws4)) = Some (k, v).
Proof.
  intros H1 H2 H3 H4 Hne Hk Heq Hhash.
  set (X := k ++ ws2 ++ String Text.EQUALS (ws3 ++ quoted v)).
  assert (Py.strip (ws1 ++ k ++ ws2 ++ String Text.EQUALS (ws3 ++ quoted v ++ ws4)) = X) as Hline.
  { unfold Py.strip. rewrite (lstrip_blank_app _ _ H1).
    rewrite (lstrip_stripped_app _ _ Hne Hk). subst X.
    replace (k ++ ws2 ++ String Text.EQUALS (ws3 ++ quoted v ++ ws4))
      with (((k ++ ws2 ++ String Text.EQUALS (ws3 ++ String Text.DQUOTE v))
               ++ String Text.DQUOTE EmptyString) ++ ws4).
    2:{ unfold quoted. by text_norm. }
    rewrite (rstrip_app_blank _ _ H4), rstrip_last by done.
    unfold quoted. by text_norm. }
  unfold parse_line. rewrite Hline.
  rewrite bool_decide_eq_false_2 by (by apply app_nonempty).
  assert (Text.startswith Text.HASH X = false) as ->
    by (subst X; by rewrite startswith_app).
  simpl.
  assert (Text.has_unescaped_quote X = true) as ->.
  { unfold Text.has_unescaped_quote. subst X.
    rewrite <- append_assoc_s. unfold quoted. by apply unescaped_after_equals. }
  rewrite andb_false_r.
  assert (Text.partition Text.EQUALS X = (k ++ ws2, ws3 ++ quoted v)) as Hpart.
  { subst X. rewrite <- append_assoc_s. apply partition_first.
    rewrite contains_app, Heq. simpl. by apply blank_contains. }
  assert (Text.contains Text.EQUALS X = true) as ->.
  { subst X. rewrite !contains_app.
    change (Text.contains Text.EQUALS (String Text.EQUALS (ws3 ++ quoted v))) with true.
    by rewrite !orb_true_r. }
  simpl. rewrite Hpart.
  assert (Py.strip (k ++ ws2) = k) as ->.
  { unfold Py.strip. rewrite (lstrip_stripped_app _ _ Hne Hk).
    rewrite (rstrip_app_blank _ _ H2). by apply stripped_rstrip. }
  assert (Py.strip (ws3 ++ quoted v) = quoted v) as ->.
  { unfold Py.strip. rewrite (lstrip_blank_app _ _ H3). unfold quoted.
    rewrite (lstrip_keep _ _ (eq_refl : Py.isspace Text.DQUOTE = false)).
    rewrite <- append_cons. by rewrite rstrip_last. }
  assert (Text.endswith Text.DQUOTE (quoted v) = true) as ->.
  { unfold quoted. rewrite <- append_cons. by rewrite endswith_last. }
  unfold quoted at 1 2. simpl. rewrite orb_true_r. simpl.
  by rewrite drop_last_last.
Qed.

Lemma quoted_value_is_kept_witness :
  parse_line ("  " ++ "ALERT_COMMAND" ++ " " ++
                String Text.EQUALS (" " ++ quoted "logger -t guard # all = yes" ++ "   "))
  = Some ("ALERT_COMMAND", "logger -t guard # all = yes").
Proof.
  apply quoted_value_is_kept; try reflexivity. discriminate.
Defined.

Lemma lstrip_app_keep a s :
  Py.lstrip a <> EmptyString -> Py.lstrip (a ++ s) = Py.lstrip a ++ s.
Proof.
  induction a as [|c a IH]; [done|]. text_simpl.
  destruct (Py.isspace c); [apply IH|done].
Qed.

Lemma lstrip_all_blank a :
  Py.lstrip a = EmptyString -> Py.all_chars Py.isspace a = true.
Proof.
  induction a as [|c a IH]; [done|]. simpl.
  destruct (Py.isspace c); [apply IH|done].
Qed.

Lemma contains_lstrip_false c s :
  Text.contains c s = false -> Text.contains c (Py.lstrip s) = false.
Proof.
  intros H. destruct (Text.contains c (Py.lstrip s)) eqn:E; [|done].
  apply contains_lstrip in E. congruence.
Qed.

Lemma contains_rstrip_false c s :
  Text.contains c s = false -> Text.contains c (Py.rstrip s) = false.
Proof.
  intros H. destruct (Text.contains c (Py.rstrip s)) eqn:E; [|done].
  apply contains_rstrip in E. congruence.
Qed.

(** X16.  On a line without any double quote, a hash starts a comment:
    the line assigns what the text before its first hash assigns. *)
Theorem inline_comment_is_dropped a c :
  Text.contains Text.HASH a = false ->
  Text.contains Text.DQUOTE a = false -> Text.contains Text.DQUOTE c = false ->
  parse_line (a ++ String Text.HASH c) = parse_line a.
Proof.
  intros Hhash Hqa Hqc.
  destruct (lstrip_head a) as [E | (x & r & E & Hx)].
  - (* nothing but blanks before the comment *)
    pose proof (lstrip_all_blank _ E) as Hblank.
    unfold parse_line, Py.strip.
    rewrite (lstrip_blank_app _ _ Hblank), E.
    rewrite (lstrip_keep _ _ (eq_refl : Py.isspace Text.HASH = false)).
    by rewrite (rstrip_cons_keep _ _ (eq_refl : Py.isspace Text.HASH = false)).
  - set (L := Py.lstrip a) in *.
    assert (Text.contains Text.HASH L = false) as HhL by (by apply contains_lstrip_false).
    assert (Text.contains Text.DQUOTE L = false) as HqL by (by apply contains_lstrip_false).
    assert (Ascii.eqb x Text.HASH = false) as Hxh.
    { rewrite E in HhL. simpl in HhL. by apply orb_false_iff in HhL as [? _]. }
    assert (Py.strip (a ++ String Text.HASH c) = L ++ String Text.HASH (Py.rstrip c)) as Hl1.
    { unfold Py.strip. rewrite lstrip_app_keep by (fold L; by rewrite E). fold L.
      rewrite rstrip_app_keep;
        by rewrite (rstrip_cons_keep _ _ (eq_refl : Py.isspace Text.HASH = false)). }
    assert (Py.strip a = String x (Py.rstrip r)) as Hl2.
    { unfold Py.strip. fold L. by rewrite E, (rstrip_cons_keep _ _ Hx). }
    assert (Py.strip L = Py.strip a) as HsL.
    { unfold Py.strip at 1. subst L. rewrite E at 1.
      rewrite (lstrip_keep _ _ Hx), <- E. done. }
    assert (Text.contains Text.HASH (Py.strip a) = false) as Hh2
      by (by apply contains_strip_false).
    unfold parse_line. rewrite Hl1.
    rewrite (bool_decide_eq_false_2 (L ++ _ = EmptyString))
      by (rewrite E; by text_simpl).
    assert (Text.startswith Text.HASH (L ++ String Text.HASH (Py.rstrip c)) = false) as ->
      by (by rewrite E, append_cons).
    assert (Text.contains Text.HASH (L ++ String Text.HASH (Py.rstrip c)) = true) as ->.
    { rewrite contains_app. simpl. by rewrite orb_true_r. }
    assert (Text.has_unescaped_quote (L ++ String Text.HASH (Py.rstrip c)) = false) as ->.
    { apply no_quote_no_unescaped. rewrite contains_app, HqL. simpl.
      by apply contains_rstrip_false. }
    rewrite (partition_first _ _ _ HhL). simpl. rewrite HsL.
    rewrite (bool_decide_eq_false_2 (Py.strip a = EmptyString)) by (by rewrite Hl2).
    assert (Text.startswith Text.HASH (Py.strip a) = false) as ->
      by (by rewrite Hl2).
    by rewrite Hh2.
Qed.

Lemma inline_comment_is_dropped_witness :
  parse_line ("LOAD_THRESHOLD=7.5  " ++ String Text.HASH " five minute load")
  = parse_line "LOAD_THRESHOLD=7.5  ".
Proof.
  apply inline_comment_is_dropped; reflexivity.
Defined.

Lemma main_without_credentials py_float cfg e w :
  missing (ZONE_ID cfg) || missing (CF_API_TOKEN cfg) = true ->
  main py_float cfg e w = (1, with_events [Print MissingCredentials] w).
Proof. intros H. unfold main. by rewrite H. Qed.

(** X17.  When no line of the configuration file assigns ZONE_ID, or none
    assigns CF_API_TOKEN, the run on the configuration read from it returns
    1 after one printed line: no API call, no file written. *)
Theorem credentials_must_be_assigned py_float e w lines :
  (forall raw v, raw ∈ lines -> parse_line raw <> Some ("ZONE_ID", v)) \/
  (forall raw v, raw ∈ lines -> parse_line raw <> Some ("CF_API_TOKEN", v)) ->
  main py_float (config_of py_float e (load_config_lines lines)) e w
  = (1, with_events [Print MissingCredentials] w).
Proof.
  intros H. apply main_without_credentials. unfold load_config_lines. simpl.
  destruct H as [H|H]; rewrite (foldl_assign_other _ _ _ H), lookup_empty; simpl;
    by rewrite ?orb_true_r.
Qed.

Lemma credentials_must_be_assigned_witness :
  main decimal_float
    (config_of decimal_float (sample_env "9.30" 1700000000 true)
       (load_config_lines sample_conf))
    (sample_env "9.30" 1700000000 true) (sample_world "medium" None "medium")
  = (1, with_events [Print MissingCredentials] (sample_world "medium" None "medium")).
Proof.
  apply credentials_must_be_assigned. left.
  intros raw v Hin. unfold sample_conf in Hin.
  repeat (apply elem_of_cons in Hin as [-> | Hin]; [computed|]).
  by apply elem_of_nil in Hin.
Defined.

(** ** The status of the PATCH and rounding *)

(** X18.  The HTTP status of the PATCH plays no part when the payload
    reports success: a run is the same, results and effects, whatever that
    status is. *)
Theorem patch_status_is_not_consulted py_float cfg e w c :
  patch_success e = true ->
  main py_float cfg (set_patch_code c e) w = main py_float cfg e w.
Proof.
  intros Hs. destruct e as [n h l g pc ps sm ml]. simpl in Hs. subst ps.
  unfold set_patch_code. simpl. reflexivity.
Qed.

Lemma patch_status_is_not_consulted_witness :
  main decimal_float sample_cfg (set_patch_code 500 (sample_env "9.30" 1700000000 true))
    (sample_world "medium" None "medium")
  = main decimal_float sample_cfg (sample_env "9.30" 1700000000 true)
      (sample_world "medium" None "medium").
Proof.
  apply patch_status_is_not_consulted. reflexivity.
Defined.






(** ** Replies of the API *)

Lemma api_request_inv reply code payload :
  Api.cf_request reply = (code, payload) ->
  (payload = Api.JObj [] /\ (reply = Api.Answer code Api.NoBody
                             \/ exists err, reply = Api.HTTPError code Api.NoBody err))
  \/ (reply = Api.Answer code (Api.Doc payload)
      \/ exists err, reply = Api.HTTPError code (Api.Doc payload) err)
  \/ (exists err, payload = Api.failed err).
Proof.
  destruct reply as [c [|j|g] | c [|j|g] err | err]; simpl; intros [= <- <-]; eauto 7.
Qed.

(** X21.  [cf_get_mode] on the reply.  From a reply with status 200 whose
    body is an object with an object at result it returns the member value
    of that object, whatever its type.  It returns a truthy value, the only
    kind [main] goes on with (line 276), from such a reply only: not after a
    failure of the transport, nor from a body that is not JSON, not an
    object or without result.value.  With any status other than 200 it
    returns the empty string. *)
Theorem mode_needs_a_full_reply reply :
  let full members result v :=
    (reply = Api.Answer 200 (Api.Doc (Api.JObj members))
     \/ exists err, reply = Api.HTTPError 200 (Api.Doc (Api.JObj members)) err)
    /\ Api.member "result" members = Some (Api.JObj result)
    /\ Api.member "value" result = Some v in
  (forall members result v, full members result v -> Api.cf_get_mode reply = v)
  /\ (Api.truthy (Api.cf_get_mode reply) = true ->
      exists members result v, full members result v)
  /\ ((Api.cf_request reply).1 <> 200 -> Api.cf_get_mode reply = Api.JStr EmptyString).
Proof.
  intros full. subst full. split; [|split].
  - intros members result v ([-> | [err ->]] & Hr & Hv);
      unfold Api.cf_get_mode; simpl; rewrite Hr; simpl; by rewrite Hv.
  - unfold Api.cf_get_mode.
    destruct (Api.cf_request reply) as [code payload] eqn:E.
    destruct (code =? 200) eqn:Hc; [|done]. apply Z.eqb_eq in Hc. subst code.
    destruct payload as [| | | |items|members]; try done.
    destruct (Api.member "result" members) as [[| | | |?|result]|] eqn:Hr; simpl; try done.
    destruct (Api.member "value" result) as [v|] eqn:Hv; simpl; [|done].
    intros Ht. exists members, result, v.
    destruct (api_request_inv _ _ _ E) as [[[= ->] _] | [H | [err [= -> ]]]];
      [done| |done].
    by repeat split.
  - unfold Api.cf_get_mode. destruct (Api.cf_request reply) as [code payload]. simpl.
    intros Hc. apply Z.eqb_neq in Hc. by rewrite Hc.
Qed.

(** X22.  [cf_set_mode] reports success exactly when the reply, answered
    normally or as an HTTP error and with any status, has a body that is an
    object whose member success is truthy.  A failure of the transport or a
    body that cannot be parsed is never a success. *)
Theorem patch_succeeds_by_the_payload_alone reply :
  (Api.cf_set_mode reply).1.2 = true <->
  exists code members v,
    (reply = Api.Answer code (Api.Doc (Api.JObj members))
     \/ exists err, reply = Api.HTTPError code (Api.Doc (Api.JObj members)) err)
    /\ Api.member "success" members = Some v /\ Api.truthy v = true.
Proof.
  unfold Api.cf_set_mode. split.
  - destruct (Api.cf_request reply) as [code payload] eqn:E. simpl.
    destruct payload as [| | | |items|members]; try done.
    destruct (Api.member "success" members) as [v|] eqn:Hv; simpl; [|done].
    intros Ht.
    destruct (api_request_inv _ _ _ E) as [[[= ->] _] | [H | [err [= -> ]]]].
    + done.
    + by exists code, members, v.
    + simpl in Hv. injection Hv as <-. done.
  - intros (code & members & v & [-> | [err ->]] & Hm & Ht); simpl; by rewrite Hm.
Qed.
